(** * Scoring engine of the APT variant evaluator

    A shallow embedding of the two scoring scripts of the repository,
    [evaluate_apt_variants.py] (module [V1]) and [score_apt_variants_v2.py]
    (module [V2]): technique extraction, technique-to-tactic resolution,
    the logical-coherence scorer, the operational-realism scorer and the
    same-objective classifier.

    Conventions of the embedding:
    - a sequence field is an [option string]: [None] is a missing cell
      ([pd.isna]), [Some s] a text cell; text is a string of 8-bit
      characters, on which the class [\d] is [0-9];
    - Python [int] is [Z]; a [dict] literal is a [gmap] built by inserting
      the items in source order (a repeated key keeps its last value); a
      [set] of strings is a [gset string];
    - Python [float] is IEEE-754 binary64; its values are represented by
      the rationals they denote, and each operation rounds to 53
      significant bits, ties to even ([Py.round53]);
    - code that can raise ([d[k]], [/]) lives in the [Py.result] monad. *)

From stdpp Require Import gmap strings list.
From Stdlib Require Import Ascii QArith Qround Qpower Lqa Sorting.Sorted.

Local Open Scope string_scope.
Local Open Scope Z_scope.

(** ** Python primitives used by both scripts *)
Module Py.

Inductive exn : Type :=
| KeyError (key : string)
| ZeroDivisionError.

Inductive result (A : Type) : Type :=
| Ok (a : A)
| Raise (e : exn).
Arguments Ok {A} a.
Arguments Raise {A} e.

#[export] Instance result_ret : MRet result := fun A a => Ok a.
#[export] Instance result_bind : MBind result := fun A B f m =>
  match m with
  | Ok a => f a
  | Raise e => Raise e
  end.

(** [[f(x) for x in l]] where [f] may raise: left to right, the first
    exception wins. *)
Fixpoint traverse {A B : Type} (f : A -> result B) (l : list A)
  : result (list B) :=
  match l with
  | [] => Ok []
  | x :: l' => y ← f x; ys ← traverse f l'; Ok (y :: ys)
  end.

(** *** Strings and the technique pattern *)

Definition is_digit (c : ascii) : bool :=
  (Ascii.leb "0" c && Ascii.leb c "9")%char.

(** Length of the match of [T\d{4}(?:\.\d{3})?] anchored at the head of
    [s], if there is one.  The optional group is greedy and nothing
    follows it, so it is taken whenever it matches. *)
Definition match_technique (s : string) : option nat :=
  match s with
  | String t (String d1 (String d2 (String d3 (String d4 rest)))) =>
      if Ascii.eqb t "T"
         && is_digit d1 && is_digit d2 && is_digit d3 && is_digit d4
      then
        match rest with
        | String p (String e1 (String e2 (String e3 _))) =>
            if Ascii.eqb p "." && is_digit e1 && is_digit e2 && is_digit e3
            then Some 9%nat
            else Some 5%nat
        | _ => Some 5%nat
        end
      else None
  | _ => None
  end.

(** [re.findall] for the technique pattern: scan left to right; a match
    is reported and the scan resumes after it ([skip] counts the
    characters of the current match still to be passed over). *)
Fixpoint findall_from (skip : nat) (s : string) : list string :=
  match s with
  | EmptyString => []
  | String _ s' =>
      match skip with
      | S k => findall_from k s'
      | O =>
          match match_technique s with
          | Some n => String.substring 0 n s :: findall_from (n - 1) s'
          | None => findall_from 0 s'
          end
      end
  end.

Definition re_findall_technique (s : string) : list string :=
  findall_from 0 s.

(** [s.split('.')[0]]: the text before the first dot. *)
Fixpoint split_dot_head (s : string) : string :=
  match s with
  | EmptyString => EmptyString
  | String c s' =>
      if Ascii.eqb c "."%char then EmptyString
      else String c (split_dot_head s')
  end.

(** *** Dictionaries *)

(** A [dict] literal [{k1: v1, k2: v2, ...}]. *)
Definition dict {V : Type} (items : list (string * V)) : gmap string V :=
  foldl (fun m kv => <[kv.1 := kv.2]> m) ∅ items.

(** [d.get(k, dflt)] *)
Definition get {V : Type} (d : gmap string V) (k : string) (dflt : V) : V :=
  default dflt (d !! k).

(** [d[k]] *)
Definition subscript {V : Type} (d : gmap string V) (k : string)
  : result V :=
  match d !! k with
  | Some v => Ok v
  | None => Raise (KeyError k)
  end.

(** The items [code: tactic] of one commented block of a table. *)
Definition block (tactic : string) (codes : list string)
  : list (string * string) :=
  map (fun c => (c, tactic)) codes.

(** *** binary64 arithmetic on the rationals it denotes *)

Definition pow2 (e : Z) : Q := (2 ^ e)%Q.

(** For [x > 0], the [g] with [2^g <= x < 2^(g+1)]. *)
Definition ilog2 (x : Q) : Z :=
  let g := Z.log2 (Qnum x) - Z.log2 (Zpos (Qden x)) in
  if Qle_bool (pow2 g) x then g else g - 1.

Definition round_half_even (x : Q) : Z :=
  let q := Qfloor x in
  match (x - inject_Z q ?= 1 # 2)%Q with
  | Lt => q
  | Gt => q + 1
  | Eq => if Z.even q then q else q + 1
  end.

(** Rounding of a positive rational to 53 significant bits. *)
Definition round53_pos (x : Q) : Q :=
  let e := ilog2 x - 52 in
  (inject_Z (round_half_even (x / pow2 e)) * pow2 e)%Q.

Definition round53 (x : Q) : Q :=
  match Qnum x with
  | Z0 => 0%Q
  | Zpos _ => round53_pos x
  | Zneg _ => (- round53_pos (- x))%Q
  end.

(** A decimal literal such as [0.05], given as the fraction it spells. *)
Definition float_literal (x : Q) : Q := round53 x.

(** [float(n)] *)
Definition float_of_int (n : Z) : Q := round53 (inject_Z n).

(** [n * c] for an [int] [n] and a [float] [c]. *)
Definition int_mul_float (n : Z) (c : Q) : Q :=
  round53 (float_of_int n * c).

(** [a / b] on [int]s: true division, correctly rounded. *)
Definition truediv (a b : Z) : result Q :=
  if b =? 0 then Raise ZeroDivisionError
  else Ok (round53 (inject_Z a / inject_Z b)).

(** [x in l] for a list of strings *)
Definition in_list (x : string) (l : list string) : bool :=
  bool_decide (x ∈ l).

(** [x in s] for a set of strings *)
Definition in_set (x : string) (s : gset string) : bool :=
  bool_decide (x ∈ s).

(** Truth value of a set: non-empty. *)
Definition truthy (s : gset string) : bool := bool_decide (s ≠ ∅).

End Py.
Import Py.

(** ** evaluate_apt_variants.py *)
Module V1.

Definition TACTIC_ORDER_items : list (string * Z) :=
  [("reconnaissance", 0); ("resource-development", 1);
     ("initial-access", 2); ("execution", 3); ("persistence", 4);
     ("privilege-escalation", 5); ("defense-evasion", 6);
     ("credential-access", 7); ("discovery", 8); ("lateral-movement", 9);
     ("collection", 10); ("command-and-control", 11);
     ("exfiltration", 12); ("impact", 13)].

Definition TACTIC_ORDER : gmap string Z := dict TACTIC_ORDER_items.

Definition TECHNIQUE_TACTIC_MAP_items : list (string * string) :=
    block "reconnaissance"
      ["T1595"; "T1594"; "T1593"; "T1592"; "T1590"; "T1591"; "T1589";
       "T1598"] ++
    block "resource-development"
      ["T1583"; "T1586"; "T1584"; "T1587"; "T1585"; "T1588"] ++
    block "initial-access"
      ["T1189"; "T1190"; "T1133"; "T1200"; "T1566"; "T1091"; "T1195";
       "T1199"; "T1078"] ++
    block "execution"
      ["T1059"; "T1106"; "T1203"; "T1559"; "T1569"; "T1204"; "T1047";
       "T1053"; "T1072"] ++
    block "persistence"
      ["T1098"; "T1197"; "T1547"; "T1037"; "T1136"; "T1543"; "T1505";
       "T1542"; "T1554"; "T1053"; "T1133"; "T1078"] ++
    block "privilege-escalation"
      ["T1134"; "T1548"; "T1547"; "T1037"; "T1543"; "T1068"; "T1574";
       "T1055"; "T1053"; "T1078"] ++
    block "defense-evasion"
      ["T1548"; "T1134"; "T1197"; "T1140"; "T1480"; "T1211"; "T1222";
       "T1564"; "T1574"; "T1562"; "T1070"; "T1202"; "T1036"; "T1556";
       "T1578"; "T1112"; "T1027"; "T1647"; "T1055"; "T1542"; "T1620";
       "T1207"; "T1218"; "T1216"; "T1553"; "T1221"; "T1205"; "T1127";
       "T1535"; "T1078"; "T1497"; "T1600"; "T1601"] ++
    block "credential-access"
      ["T1110"; "T1555"; "T1212"; "T1187"; "T1606"; "T1056"; "T1556";
       "T1111"; "T1621"; "T1040"; "T1003"; "T1528"; "T1558"; "T1539"] ++
    block "discovery"
      ["T1087"; "T1010"; "T1217"; "T1580"; "T1538"; "T1526"; "T1482";
       "T1083"; "T1615"; "T1046"; "T1135"; "T1040"; "T1201"; "T1120";
       "T1069"; "T1057"; "T1012"; "T1018"; "T1518"; "T1082"; "T1614";
       "T1016"; "T1049"; "T1033"; "T1007"; "T1124"; "T1497"; "T1622"] ++
    block "lateral-movement"
      ["T1210"; "T1534"; "T1570"; "T1563"; "T1021"; "T1091"; "T1072";
       "T1080"; "T1550"] ++
    block "collection"
      ["T1560"; "T1123"; "T1119"; "T1185"; "T1115"; "T1530"; "T1602";
       "T1213"; "T1005"; "T1039"; "T1025"; "T1074"; "T1114"; "T1113";
       "T1125"] ++
    block "command-and-control"
      ["T1071"; "T1092"; "T1132"; "T1001"; "T1568"; "T1573"; "T1008";
       "T1105"; "T1104"; "T1095"; "T1571"; "T1572"; "T1090"; "T1219";
       "T1205"; "T1102"] ++
    block "exfiltration"
      ["T1020"; "T1030"; "T1048"; "T1041"; "T1011"; "T1052"; "T1567";
       "T1029"; "T1537"] ++
    block "impact"
      ["T1531"; "T1485"; "T1486"; "T1565"; "T1491"; "T1561"; "T1499";
       "T1495"; "T1490"; "T1498"; "T1496"; "T1489"; "T1529"].

Definition TECHNIQUE_TACTIC_MAP : gmap string string :=
  dict TECHNIQUE_TACTIC_MAP_items.

Definition APT_OBJECTIVES_items : list (string * list string) :=
  [("APT41", ["espionage"; "financial-gain"]);
     ("Turla", ["espionage"]);
     ("MuddyWater", ["espionage"; "disruption"; "ransomware"]);
     ("APT39", ["espionage"; "credential-theft"]);
     ("Lazarus_Group", ["financial-gain"; "disruption"; "ransomware"]);
     ("APT28", ["espionage"; "information-warfare"]);
     ("Cobalt_Group", ["financial-theft"]);
     ("APT31", ["espionage"]);
     ("APT37", ["espionage"]);
     ("APT29", ["espionage"]);
     ("APT38", ["financial-theft"]);
     ("BRONZEBUTLER", ["espionage"]);
     ("Kimsuky", ["espionage"; "credential-harvesting"]);
     ("Dragonfly", ["espionage"; "ics-targeting"]);
     ("Sandworm_Team", ["disruption"; "ransomware"; "ics-disruption"]);
     ("Aquatic_Panda", ["espionage"; "supply-chain"]);
     ("Wizard_Spider", ["ransomware"]);
     ("FIN7", ["financial-theft"]);
     ("APT3", ["espionage"])].

Definition APT_OBJECTIVES : gmap string (list string) :=
  dict APT_OBJECTIVES_items.

Definition extract_techniques (sequence : option string) : list string :=
  match sequence with
  | None => []
  | Some s => if String.eqb s "" then [] else re_findall_technique s
  end.

Definition get_tactic_for_technique (technique : string) : string :=
  let base_technique := split_dot_head technique in
  get TECHNIQUE_TACTIC_MAP base_technique "unknown".

(** [tactic_order_values] of [evaluate_logical_coherence]. *)
Definition tactic_order_values (techniques : list string) : list Z :=
  let tactics := map get_tactic_for_technique techniques in
  map (fun t => get TACTIC_ORDER t (-1))
      (filter (fun t => t ≠ "unknown") tactics).

(** The loop over consecutive pairs, [violations] being its counter. *)
Fixpoint count_violations (violations : Z) (values : list Z) : Z :=
  match values with
  | x :: ((y :: _) as rest) =>
      if x >? y then
        let diff := x - y in
        if diff >? 3 then count_violations (violations + 2) rest
        else count_violations (violations + 1) rest
      else count_violations violations rest
  | _ => violations
  end.

(** [violations <= max_violations * c] *)
Definition within (violations max_violations : Z) (c : Q) : bool :=
  Qle_bool (inject_Z violations) (int_mul_float max_violations c).

Definition violation_score (violations max_violations : Z) : Z :=
  if violations =? 0 then 10
  else if within violations max_violations (float_literal (1 # 10)) then 9
  else if within violations max_violations (float_literal (2 # 10)) then 8
  else if within violations max_violations (float_literal (3 # 10)) then 7
  else if within violations max_violations (float_literal (4 # 10)) then 6
  else if within violations max_violations (float_literal (5 # 10)) then 5
  else if within violations max_violations (float_literal (7 # 10)) then 4
  else if within violations max_violations (float_literal (85 # 100)) then 3
  else 2.

Definition evaluate_logical_coherence (sequence : option string) : Z :=
  let techniques := extract_techniques sequence in
  match techniques with
  | [] => 1
  | _ =>
      let values := tactic_order_values techniques in
      match values with
      | [] => 5
      | _ =>
          let violations := count_violations 0 values in
          let max_violations := Z.of_nat (length values) in
          let score := violation_score violations max_violations in
          Z.max 1 (Z.min 10 score)
      end
  end.

(** [essential_present] of [evaluate_operational_realism]. *)
Definition essential_present (tactics : gset string) : Z :=
  let n := 0 in
  let n := if in_set "initial-access" tactics
              || in_set "reconnaissance" tactics then n + 1 else n in
  let n := if in_set "execution" tactics then n + 1 else n in
  let n := if in_set "command-and-control" tactics
              || in_set "persistence" tactics then n + 1 else n in
  n.

Definition technique_tactics (techniques : list string) : gset string :=
  list_to_set (map get_tactic_for_technique techniques).

Definition evaluate_operational_realism
    (sequence : option string) (apt_name : string) : Z :=
  let techniques := extract_techniques sequence in
  match techniques with
  | [] => 1
  | _ =>
      let score := 7 in
      let seq_length := Z.of_nat (length techniques) in
      let score :=
        if seq_length <? 5 then score - 2
        else if seq_length >? 40 then score - 2
        else if (8 <=? seq_length) && (seq_length <=? 25) then score + 1
        else score in
      let tactics := technique_tactics techniques in
      let present := essential_present tactics in
      let score :=
        if present >=? 2 then score + 1
        else if present =? 1 then score - 1
        else score - 2 in
      let score :=
        if in_set "impact" tactics
           && negb (in_set "collection" tactics)
           && negb (in_set "exfiltration" tactics)
        then
          if negb (in_list apt_name
                     ["Sandworm_Team"; "Wizard_Spider"; "Lazarus_Group"])
          then score - 1 else score
        else score in
      Z.max 1 (Z.min 10 score)
  end.

(** [objectives.append(x)] *)
Definition append (objectives : list string) (x : string) : list string :=
  objectives ++ [x].

Definition infer_objective_from_sequence (sequence : option string)
  : list string :=
  let techniques := extract_techniques sequence in
  let tactic_set := technique_tactics techniques in
  let objectives := [] in
  let objectives :=
    if in_set "exfiltration" tactic_set || in_set "collection" tactic_set
    then append objectives "espionage" else objectives in
  let objectives :=
    if in_set "credential-access" tactic_set
       && in_set "lateral-movement" tactic_set
    then append (append objectives "financial-gain") "credential-theft"
    else objectives in
  let objectives :=
    if in_set "impact" tactic_set
    then append (append objectives "disruption") "ransomware"
    else objectives in
  let objectives :=
    if in_set "credential-access" tactic_set
    then append (append objectives "credential-harvesting")
                "credential-theft"
    else objectives in
  match objectives with
  | [] => append objectives "espionage"
  | _ => objectives
  end.

Definition compatible_groups : list (gset string) :=
  [ list_to_set ["espionage"; "credential-theft"; "credential-harvesting"];
    list_to_set ["financial-gain"; "financial-theft"; "credential-theft"];
    list_to_set ["disruption"; "ransomware"; "ics-disruption"] ].

(** [pd.isna(x) or x == ''] *)
Definition missing (x : option string) : bool :=
  match x with
  | None => true
  | Some s => String.eqb s ""
  end.

Definition evaluate_same_objective
    (seed_sequence candidate_sequence : option string) (apt_name : string)
  : string :=
  if missing candidate_sequence then "No"
  else
    let seed_objectives := infer_objective_from_sequence seed_sequence in
    let candidate_objectives :=
      infer_objective_from_sequence candidate_sequence in
    let apt_objectives := get APT_OBJECTIVES apt_name ["espionage"] in
    let seed_set : gset string := list_to_set seed_objectives in
    let candidate_set : gset string := list_to_set candidate_objectives in
    let apt_set : gset string := list_to_set apt_objectives in
    if truthy (seed_set ∩ candidate_set) then "Yes"
    else if truthy (seed_set ∩ apt_set) && truthy (candidate_set ∩ apt_set)
    then "Yes"
    else if existsb (fun group => truthy (seed_set ∩ group)
                                  && truthy (candidate_set ∩ group))
                    compatible_groups
    then "Yes"
    else "No".

(** One row of the judgement table, with the columns that
    [evaluate_candidates] reads; a cell of a sequence column is a text or
    missing. *)
Record row : Type := {
  apt : string;
  variant : string;
  seed_set_enriched : option string;
  C1_enriched : option string;
  C2_enriched : option string;
  C3_enriched : option string;
  C4_enriched : option string;
  C5_enriched : option string;
  C6_enriched : option string
}.

(** [row[f'C{i}_enriched']] for [i] in [range(1, 7)] *)
Definition candidate_cell (r : row) (i : nat) : option string :=
  match i with
  | 1 => C1_enriched r
  | 2 => C2_enriched r
  | 3 => C3_enriched r
  | 4 => C4_enriched r
  | 5 => C5_enriched r
  | _ => C6_enriched r
  end%nat.

(** The three cells [Ci_LC], [Ci_OR], [Ci_SO] written for one candidate;
    [None] is Python's [None]. *)
Record scores : Type := {
  LC : option Z;
  OR : option Z;
  SO : option string
}.




End V1.

(** ** score_apt_variants_v2.py *)
Module V2.

Definition TACTIC_ORDER_items : list (string * Z) :=
  [("reconnaissance", 1); ("resource-development", 2);
     ("initial-access", 3); ("execution", 4); ("persistence", 5);
     ("privilege-escalation", 6); ("defense-evasion", 7);
     ("credential-access", 8); ("discovery", 9); ("lateral-movement", 10);
     ("collection", 11); ("command-and-control", 12);
     ("exfiltration", 13); ("impact", 14)].

Definition TACTIC_ORDER : gmap string Z := dict TACTIC_ORDER_items.

Definition TECHNIQUE_TO_TACTIC_items : list (string * string) :=
    block "reconnaissance"
      ["T1595"; "T1594"; "T1593"; "T1592"; "T1590"; "T1591"; "T1589";
       "T1598"] ++
    block "resource-development"
      ["T1583"; "T1586"; "T1584"; "T1587"; "T1585"; "T1588"] ++
    block "initial-access"
      ["T1189"; "T1190"; "T1133"; "T1200"; "T1566"; "T1091"; "T1195";
       "T1199"; "T1078"] ++
    block "execution"
      ["T1059"; "T1106"; "T1203"; "T1559"; "T1569"; "T1204"; "T1047";
       "T1053"; "T1072"; "T1129"] ++
    block "persistence"
      ["T1098"; "T1197"; "T1547"; "T1037"; "T1136"; "T1543"; "T1505";
       "T1542"; "T1554"; "T1053"; "T1133"; "T1078"; "T1574"] ++
    block "privilege-escalation"
      ["T1134"; "T1548"; "T1547"; "T1037"; "T1543"; "T1068"; "T1574";
       "T1055"; "T1053"; "T1078"; "T1088"] ++
    block "defense-evasion"
      ["T1548"; "T1134"; "T1197"; "T1140"; "T1480"; "T1211"; "T1222";
       "T1564"; "T1574"; "T1562"; "T1070"; "T1202"; "T1036"; "T1556";
       "T1578"; "T1112"; "T1027"; "T1647"; "T1055"; "T1542"; "T1620";
       "T1207"; "T1218"; "T1216"; "T1553"; "T1221"; "T1205"; "T1127";
       "T1535"; "T1078"; "T1497"; "T1600"; "T1601"; "T1550"] ++
    block "credential-access"
      ["T1110"; "T1555"; "T1212"; "T1187"; "T1606"; "T1056"; "T1556";
       "T1111"; "T1621"; "T1040"; "T1003"; "T1528"; "T1558"; "T1539"] ++
    block "discovery"
      ["T1087"; "T1010"; "T1217"; "T1580"; "T1538"; "T1526"; "T1482";
       "T1083"; "T1615"; "T1046"; "T1135"; "T1040"; "T1201"; "T1120";
       "T1069"; "T1057"; "T1012"; "T1018"; "T1518"; "T1082"; "T1614";
       "T1016"; "T1049"; "T1033"; "T1007"; "T1124"; "T1497"; "T1622"] ++
    block "lateral-movement"
      ["T1210"; "T1534"; "T1570"; "T1563"; "T1021"; "T1091"; "T1072";
       "T1080"; "T1550"; "T1077"] ++
    block "collection"
      ["T1560"; "T1123"; "T1119"; "T1185"; "T1115"; "T1530"; "T1602";
       "T1213"; "T1005"; "T1039"; "T1025"; "T1074"; "T1114"; "T1113";
       "T1125"] ++
    block "command-and-control"
      ["T1071"; "T1092"; "T1132"; "T1001"; "T1568"; "T1573"; "T1008";
       "T1105"; "T1104"; "T1095"; "T1571"; "T1572"; "T1090"; "T1219";
       "T1205"; "T1102"; "T1043"] ++
    block "exfiltration"
      ["T1020"; "T1030"; "T1048"; "T1041"; "T1011"; "T1052"; "T1567";
       "T1029"; "T1537"] ++
    block "impact"
      ["T1531"; "T1485"; "T1486"; "T1565"; "T1491"; "T1561"; "T1499";
       "T1495"; "T1490"; "T1498"; "T1496"; "T1489"; "T1529"; "T1657"].

Definition TECHNIQUE_TO_TACTIC : gmap string string :=
  dict TECHNIQUE_TO_TACTIC_items.

Definition APT_OBJECTIVES_items : list (string * list string) :=
  [("APT41", ["espionage"; "financial-gain"]);
     ("Turla", ["espionage"]);
     ("MuddyWater", ["espionage"; "disruption"]);
     ("APT39", ["espionage"; "credential-harvesting"]);
     ("Lazarus_Group", ["financial-gain"; "disruption"; "ransomware"]);
     ("APT28", ["espionage"]);
     ("Cobalt_Group", ["financial-theft"]);
     ("APT31", ["espionage"]);
     ("APT37", ["espionage"]);
     ("APT29", ["espionage"]);
     ("APT38", ["financial-theft"]);
     ("BRONZEBUTLER", ["espionage"]);
     ("Kimsuky", ["espionage"; "credential-harvesting"]);
     ("Dragonfly", ["espionage"; "ics-targeting"]);
     ("Sandworm_Team", ["disruption"; "ransomware"]);
     ("Aquatic_Panda", ["espionage"]);
     ("Wizard_Spider", ["ransomware"]);
     ("FIN7", ["financial-theft"]);
     ("APT3", ["espionage"])].

Definition APT_OBJECTIVES : gmap string (list string) :=
  dict APT_OBJECTIVES_items.

Definition extract_techniques (sequence : option string) : list string :=
  match sequence with
  | None => []
  | Some s => if String.eqb s "" then [] else re_findall_technique s
  end.

Fixpoint get_tactic_sequence (techniques : list string) : list string :=
  match techniques with
  | [] => []
  | t :: techniques' =>
      let base_tech := split_dot_head t in
      let tactic := get TECHNIQUE_TO_TACTIC base_tech "unknown" in
      if bool_decide (tactic ≠ "unknown")
      then tactic :: get_tactic_sequence techniques'
      else get_tactic_sequence techniques'
  end.

(** [tactic_nums = [TACTIC_ORDER[t] for t in tactics]] *)
Definition tactic_nums (tactics : list string) : result (list Z) :=
  traverse (subscript TACTIC_ORDER) tactics.

(** The loop over consecutive pairs, with its two counters. *)
Fixpoint count_violations (violations major_violations : Z)
    (nums : list Z) : Z * Z :=
  match nums with
  | x :: ((y :: _) as rest) =>
      if x >? y then
        let diff := x - y in
        let violations :=
          if diff >? 2 then violations + 1 else violations in
        let major_violations :=
          if diff >? 5 then major_violations + 1 else major_violations in
        count_violations violations major_violations rest
      else count_violations violations major_violations rest
  | _ => (violations, major_violations)
  end.

(** The [if]/[elif] chain that sets [score] from the two counters. *)
Definition violation_score (major_violations : Z) (violation_ratio : Q)
  : Z :=
  if major_violations >=? 3 then 2
  else if major_violations =? 2 then 3
  else if major_violations =? 1 then 4
  else if Qeq_bool violation_ratio 0 then 10
  else if Qle_bool violation_ratio (float_literal (5 # 100)) then 9
  else if Qle_bool violation_ratio (float_literal (15 # 100)) then 8
  else if Qle_bool violation_ratio (float_literal (25 # 100)) then 7
  else if Qle_bool violation_ratio (float_literal (35 # 100)) then 6
  else if Qle_bool violation_ratio (float_literal (5 # 10)) then 5
  else 4.

Definition has_initial_access (tactics : list string) : bool :=
  existsb (fun t => in_list t ["initial-access"; "reconnaissance"])
          (take 7 tactics).

Definition has_execution (tactics : list string) : bool :=
  in_list "execution" tactics.

Definition has_c2_or_persistence (tactics : list string) : bool :=
  existsb (fun t => in_list t ["command-and-control"; "persistence"])
          tactics.

Definition score_logical_coherence (sequence : option string)
  : result Z :=
  let techniques := extract_techniques sequence in
  if bool_decide (techniques = []) || (Z.of_nat (length techniques) <? 3)
  then Ok 5
  else
    let tactics := get_tactic_sequence techniques in
    if bool_decide (tactics = []) then Ok 4
    else
      nums ← tactic_nums tactics;
      let '(violations, major_violations) := count_violations 0 0 nums in
      let total_transitions := Z.of_nat (length nums) - 1 in
      if total_transitions =? 0 then Ok 7
      else
        violation_ratio ← truediv violations total_transitions;
        let score := violation_score major_violations violation_ratio in
        let score :=
          if has_initial_access tactics && has_execution tactics
             && has_c2_or_persistence tactics
          then Z.min (score + 1) 10 else score in
        let score :=
          if negb (has_initial_access tactics)
             && (Z.of_nat (length techniques) >? 6)
          then Z.max (score - 2) 1 else score in
        Ok (Z.max 1 (Z.min 10 score)).

(** [sum] of a list of booleans *)
Definition sum_bools (l : list bool) : Z :=
  foldl (fun acc (b : bool) => acc + (if b then 1 else 0)) 0 l.

(** [essential_count] of [score_operational_realism]. *)
Definition essential_count (tactics : list string) : Z :=
  let tactic_set : gset string := list_to_set tactics in
  let has_initial :=
    existsb (fun t => in_list t ["initial-access"; "reconnaissance"])
            tactics in
  let has_execution := in_set "execution" tactic_set in
  let has_c2 := in_set "command-and-control" tactic_set in
  let has_persistence := in_set "persistence" tactic_set in
  sum_bools [has_initial; has_execution; has_c2 || has_persistence].

Definition score_operational_realism
    (sequence : option string) (apt_group : string) : Z :=
  let techniques := extract_techniques sequence in
  match techniques with
  | [] => 1
  | _ =>
      let tactics := get_tactic_sequence techniques in
      let tactic_set : gset string := list_to_set tactics in
      let score := 8 in
      let seq_len := Z.of_nat (length techniques) in
      let score :=
        if seq_len <? 5 then score - 2
        else if seq_len >? 50 then score - 2
        else if (8 <=? seq_len) && (seq_len <=? 30) then score + 1
        else score in
      let count := essential_count tactics in
      let score :=
        if count >=? 3 then score + 1
        else if count =? 1 then score - 1
        else if count =? 0 then score - 2
        else score in
      let apt_objectives := get APT_OBJECTIVES apt_group ["espionage"] in
      let has_exfil := in_set "exfiltration" tactic_set in
      let has_collection := in_set "collection" tactic_set in
      let has_impact := in_set "impact" tactic_set in
      let has_cred_access := in_set "credential-access" tactic_set in
      let score :=
        if in_list "espionage" apt_objectives then
          let score :=
            if has_collection || has_exfil then score + 1 else score in
          if has_impact && negb (has_collection || has_exfil)
          then score - 1 else score
        else score in
      let score :=
        if existsb (fun obj => in_list obj apt_objectives)
                   ["financial-theft"; "financial-gain"; "ransomware"]
        then if has_cred_access || has_impact then score + 1 else score
        else score in
      let score :=
        if in_list "disruption" apt_objectives
           || in_list "ransomware" apt_objectives
        then if has_impact then score + 1 else score
        else score in
      Z.max 1 (Z.min 10 score)
  end.

(** The local function [infer_objectives] of [determine_same_objective]. *)
Definition infer_objectives (tactics : gset string) : gset string :=
  let objectives : gset string := ∅ in
  let objectives :=
    if in_set "exfiltration" tactics || in_set "collection" tactics
    then objectives ∪ {["espionage"]} else objectives in
  let objectives :=
    if in_set "impact" tactics then
      let objectives := objectives ∪ {["disruption"]} in
      if in_set "credential-access" tactics
         || in_set "lateral-movement" tactics
      then objectives ∪ {["ransomware"]} else objectives
    else objectives in
  let objectives :=
    if in_set "credential-access" tactics
       && in_set "lateral-movement" tactics
    then objectives ∪ {["financial-gain"]} ∪ {["credential-harvesting"]}
    else objectives in
  objectives.

Definition compatible : list (gset string) :=
  [ list_to_set ["espionage"; "credential-harvesting"];
    list_to_set ["financial-gain"; "credential-harvesting"];
    list_to_set ["disruption"; "ransomware"] ].

(** [pd.isna(x) or x == ''] *)
Definition missing (x : option string) : bool :=
  match x with
  | None => true
  | Some s => String.eqb s ""
  end.

Definition determine_same_objective
    (seed_seq candidate_seq : option string) (apt_group : string)
  : string :=
  if missing candidate_seq then "No"
  else
    let seed_tactics : gset string :=
      list_to_set (get_tactic_sequence (extract_techniques seed_seq)) in
    let cand_tactics : gset string :=
      list_to_set (get_tactic_sequence (extract_techniques candidate_seq)) in
    let seed_obj := infer_objectives seed_tactics in
    let cand_obj := infer_objectives cand_tactics in
    let seed_obj :=
      if negb (truthy seed_obj)
      then list_to_set (get APT_OBJECTIVES apt_group ["espionage"])
      else seed_obj in
    let cand_obj :=
      if negb (truthy cand_obj)
      then list_to_set (get APT_OBJECTIVES apt_group ["espionage"])
      else cand_obj in
    if truthy (seed_obj ∩ cand_obj) then "Yes"
    else if existsb (fun group => truthy (seed_obj ∩ group)
                                  && truthy (cand_obj ∩ group))
                    compatible
    then "Yes"
    else "No".

(** One row of the input table, with the columns that
    [score_all_variants] reads. *)
Record row : Type := {
  apt : string;
  variant : string;
  seed_set_enriched : option string;
  C1_enriched : option string;
  C2_enriched : option string;
  C3_enriched : option string;
  C4_enriched : option string;
  C5_enriched : option string;
  C6_enriched : option string
}.

(** [row[f'C{i}_enriched']] for [i] in [range(1, 7)] *)
Definition candidate_cell (r : row) (i : nat) : option string :=
  match i with
  | 1 => C1_enriched r
  | 2 => C2_enriched r
  | 3 => C3_enriched r
  | 4 => C4_enriched r
  | 5 => C5_enriched r
  | _ => C6_enriched r
  end%nat.

(** The three cells [Ci_LC], [Ci_OR], [Ci_SO] written for one candidate. *)
Record scores : Type := {
  LC : option Z;
  OR : option Z;
  SO : option string
}.




End V2.

(** ** Statements of the specification, as predicates on a scorer *)

(** The coherence scorer of the first script, as a computation that never
    raises. *)
Definition coherence_v1 (sequence : option string) : result Z :=
  Ok (V1.evaluate_logical_coherence sequence).

(** "For all empty sequences the scorer returns 1; for sequences with one
    or two techniques it returns 5." *)
Definition short_input_rule
    (extract : option string -> list string)
    (coherence : option string -> result Z) : Prop :=
  forall s,
    (extract s = [] -> coherence s = Ok 1) /\
    ((1 <= length (extract s) <= 2)%nat -> coherence s = Ok 5).

(** The set of resolved tactics of a sequence field, in each script. *)
Definition resolved_tactics_v1 (sequence : option string) : gset string :=
  V1.technique_tactics (V1.extract_techniques sequence) ∖ {["unknown"]}.

Definition resolved_tactics_v2 (sequence : option string) : gset string :=
  list_to_set (V2.get_tactic_sequence (V2.extract_techniques sequence)).

(** "The classifier's answer depends only on the set of resolved tactics
    of the seed and of the candidate." *)
Definition depends_only_on_tactic_sets
    (tactic_set : option string -> gset string)
    (classify : option string -> option string -> string -> string)
  : Prop :=
  forall seed seed' cand cand' apt,
    tactic_set seed = tactic_set seed' ->
    tactic_set cand = tactic_set cand' ->
    classify seed cand apt = classify seed' cand' apt.

(** "For all sequences with zero decreasing-order transitions among
    resolved tactics, the coherence scorer returns 10", for each script. *)
Definition nondecreasing_rule_v1 : Prop :=
  forall s,
    Sorted Z.le (V1.tactic_order_values (V1.extract_techniques s)) ->
    V1.evaluate_logical_coherence s = 10.

Definition nondecreasing_rule_v2 : Prop :=
  forall s nums,
    V2.tactic_nums (V2.get_tactic_sequence (V2.extract_techniques s))
      = Ok nums ->
    Sorted Z.le nums ->
    V2.score_logical_coherence s = Ok 10.

(** The step table of the second script's coherence scorer: the part of
    its [if]/[elif] chain reached when there is no major violation. *)
Definition ratio_band (violation_ratio : Q) : Z :=
  if Qeq_bool violation_ratio 0 then 10
  else if Qle_bool violation_ratio (float_literal (5 # 100)) then 9
  else if Qle_bool violation_ratio (float_literal (15 # 100)) then 8
  else if Qle_bool violation_ratio (float_literal (25 # 100)) then 7
  else if Qle_bool violation_ratio (float_literal (35 # 100)) then 6
  else if Qle_bool violation_ratio (float_literal (5 # 10)) then 5
  else 4.

(** The bonus, the penalty and the clamp that the second script applies
    to the band. *)
Definition structure_adjust (tactics techniques : list string) (band : Z)
  : Z :=
  let score :=
    if V2.has_initial_access tactics && V2.has_execution tactics
       && V2.has_c2_or_persistence tactics
    then Z.min (band + 1) 10 else band in
  let score :=
    if negb (V2.has_initial_access tactics)
       && (Z.of_nat (length techniques) >? 6)
    then Z.max (score - 2) 1 else score in
  Z.max 1 (Z.min 10 score).

(** "A pair is a violation when the position decreases." *)
Fixpoint decreasing_pairs (values : list Z) : Z :=
  match values with
  | x :: ((y :: _) as rest) =>
      (if x >? y then 1 else 0) + decreasing_pairs rest
  | _ => 0
  end.

(** "The score band is the image of violations / (length - 1) under a
    fixed step table whose lowest band holds every ratio above 50%", for
    a way [count] of counting violations. *)
Definition ratio_table_rule
    (positions : option string -> list Z) (count : list Z -> Z)
    (coherence : option string -> result Z) : Prop :=
  exists table : Q -> Z,
    (forall r r', (1 # 2 < r)%Q -> table r <= table r') /\
    forall s,
      (2 <= length (positions s))%nat ->
      coherence s =
        Ok (table (inject_Z (count (positions s))
                   / inject_Z (Z.of_nat (length (positions s)) - 1))%Q).

(** The resolved order positions of a sequence field in the first
    script. *)
Definition resolved_positions_v1 (sequence : option string) : list Z :=
  V1.tactic_order_values (V1.extract_techniques sequence).

(** A technique identifier: [T] and four digits, optionally followed by
    a dot and three digits. *)
Definition technique_shape (t : string) : bool :=
  match t with
  | String t0 (String d1 (String d2 (String d3 (String d4 rest)))) =>
      Ascii.eqb t0 "T"
      && is_digit d1 && is_digit d2 && is_digit d3 && is_digit d4
      && match rest with
         | EmptyString => true
         | String p (String e1 (String e2 (String e3 EmptyString))) =>
             Ascii.eqb p "." && is_digit e1 && is_digit e2 && is_digit e3
         | _ => false
         end
  | _ => false
  end.

(** A character that can be part of no technique identifier. *)
Definition separator (c : ascii) : bool :=
  negb (Ascii.eqb c "T") && negb (Ascii.eqb c ".") && negb (is_digit c).


(** ** Facts about the Python primitives *)

Lemma dict_snoc {V : Type} (items : list (string * V)) k v :
  dict (items ++ [(k, v)]) = <[k := v]> (dict items).
Proof. unfold dict. by rewrite foldl_app. Qed.

(** A value read from a dictionary literal is one of the literal's items. *)
Lemma dict_lookup_Some {V : Type} (items : list (string * V)) k v :
  dict items !! k = Some v -> (k, v) ∈ items.
Proof.
  induction items as [|[k' v'] items IH] using rev_ind.
  - unfold dict. simpl. by rewrite lookup_empty.
  - rewrite dict_snoc, elem_of_app, list_elem_of_singleton.
    destruct (decide (k' = k)) as [->|Hne].
    + rewrite lookup_insert_eq. intros [= ->]. by right.
    + rewrite lookup_insert_ne by done. intros H. left. by apply IH.
Qed.

(** What holds of the default and of every item's value holds of
    [d.get(k, dflt)]. *)
Lemma get_dict_Forall {V : Type} (P : V -> Prop)
    (items : list (string * V)) k dflt :
  P dflt -> Forall (fun kv => P kv.2) items -> P (get (dict items) k dflt).
Proof.
  intros Hd Hall. unfold get.
  destruct (dict items !! k) as [v|] eqn:E; simpl; [|done].
  apply dict_lookup_Some in E.
  by apply (proj1 (Forall_forall _ _) Hall (k, v)).
Qed.

Lemma truthy_true (X : gset string) : truthy X = true <-> X ≠ ∅.
Proof. unfold truthy. by rewrite bool_decide_eq_true. Qed.

Lemma truthy_self (X : gset string) : truthy (X ∩ X) = truthy X.
Proof. by rewrite intersection_idemp_L. Qed.

Lemma truthy_list_to_set (l : list string) :
  l ≠ [] -> truthy (list_to_set l) = true.
Proof.
  intros Hl. apply truthy_true. destruct l as [|x l]; [done|]. set_solver.
Qed.

(** ** The objective classifier *)

(** C7: for every seed and every APT name, a missing candidate and the
    empty-string candidate are both answered [No], in both scripts. *)
Theorem C7_missing_candidate_No (seed : option string) (apt : string) :
  V1.evaluate_same_objective seed None apt = "No" /\
  V1.evaluate_same_objective seed (Some "") apt = "No" /\
  V2.determine_same_objective seed None apt = "No" /\
  V2.determine_same_objective seed (Some "") apt = "No".
Proof. repeat split. Qed.

Lemma infer_objective_nonempty s : V1.infer_objective_from_sequence s ≠ [].
Proof.
  unfold V1.infer_objective_from_sequence. cbv zeta.
  match goal with |- context [match ?o with [] => _ | _ => _ end] =>
    destruct o end; simpl; [unfold V1.append; simpl|]; done.
Qed.

Lemma apt_objectives_v2_nonempty apt :
  get V2.APT_OBJECTIVES apt ["espionage"] ≠ [].
Proof.
  unfold V2.APT_OBJECTIVES.
  apply (get_dict_Forall (fun l => l ≠ []) V2.APT_OBJECTIVES_items);
    [done|].
  unfold V2.APT_OBJECTIVES_items. repeat (constructor; [done|]).
  constructor.
Qed.

(** C5: for every non-empty sequence text [s] and every APT name, both
    scripts answer [Yes] when the seed and the candidate are the same
    sequence. *)
Theorem C5_same_sequence_Yes (s : string) (apt : string) :
  s ≠ "" ->
  V1.evaluate_same_objective (Some s) (Some s) apt = "Yes" /\
  V2.determine_same_objective (Some s) (Some s) apt = "Yes".
Proof.
  intros Hs.
  assert (Hm : V1.missing (Some s) = false).
  { simpl. by apply String.eqb_neq. }
  split.
  - unfold V1.evaluate_same_objective. rewrite Hm. cbv zeta.
    rewrite truthy_self, truthy_list_to_set; [done|].
    apply infer_objective_nonempty.
  - unfold V2.determine_same_objective.
    change (V2.missing (Some s)) with (V1.missing (Some s)). rewrite Hm.
    cbv zeta. rewrite truthy_self.
    destruct (truthy (V2.infer_objectives _)) eqn:E; cbv [negb].
    + by rewrite E.
    + rewrite truthy_list_to_set; [done|]. apply apt_objectives_v2_nonempty.
Qed.

Lemma C5_same_sequence_Yes_witness :
  "T1486 T1059" ≠ "" /\
  V1.evaluate_same_objective (Some "T1486 T1059") (Some "T1486 T1059")
    "FIN7" = "Yes" /\
  V2.determine_same_objective (Some "T1486 T1059") (Some "T1486 T1059")
    "FIN7" = "Yes".
Proof.
  split; [discriminate|].
  apply (C5_same_sequence_Yes "T1486 T1059" "FIN7"). discriminate.
Defined.

(** ** The coherence scorer on degenerate inputs *)

Lemma coherence_v1_values s :
  V1.extract_techniques s ≠ [] ->
  V1.evaluate_logical_coherence s =
    match V1.tactic_order_values (V1.extract_techniques s) with
    | [] => 5
    | values =>
        Z.max 1 (Z.min 10
          (V1.violation_score (V1.count_violations 0 values)
                              (Z.of_nat (length values))))
    end.
Proof.
  intros H. unfold V1.evaluate_logical_coherence.
  destruct (V1.extract_techniques s) as [|t l]; [done|]. cbv zeta.
  by destruct (V1.tactic_order_values (t :: l)).
Qed.

Lemma order_values_length techniques :
  (length (V1.tactic_order_values techniques) <= length techniques)%nat.
Proof.
  unfold V1.tactic_order_values.
  rewrite length_map, <- (length_map V1.get_tactic_for_technique techniques).
  apply length_filter.
Qed.

(** C1, as the code has it: the first script returns 1 when no technique
    is extracted, and on one or two techniques 5 when none resolves, 10
    when the resolved positions do not decrease, 5 after a backward step
    of at most 3 positions and 2 after a larger one; the second script
    returns 5 whenever fewer than three techniques are extracted, the
    empty input included. *)
Theorem C1_short_inputs (s : option string) :
  (V1.extract_techniques s = [] ->
   V1.evaluate_logical_coherence s = 1 /\
   V2.score_logical_coherence s = Ok 5) /\
  ((1 <= length (V1.extract_techniques s) <= 2)%nat ->
   V2.score_logical_coherence s = Ok 5 /\
   V1.evaluate_logical_coherence s =
     match V1.tactic_order_values (V1.extract_techniques s) with
     | [] => 5
     | [x; y] => if x >? y then (if x - y >? 3 then 2 else 5) else 10
     | _ => 10
     end).
Proof.
  split.
  - intros H. unfold V1.evaluate_logical_coherence, V2.score_logical_coherence.
    change (V2.extract_techniques s) with (V1.extract_techniques s).
    by rewrite H.
  - intros [Hlo Hhi]. split.
    + unfold V2.score_logical_coherence.
      change (V2.extract_techniques s) with (V1.extract_techniques s).
      cbv zeta.
      replace (Z.of_nat (length (V1.extract_techniques s)) <? 3) with true
        by (symmetry; apply Z.ltb_lt; lia).
      by rewrite orb_true_r.
    + rewrite coherence_v1_values
        by (intros E; rewrite E in Hlo; simpl in Hlo; lia).
      pose proof (order_values_length (V1.extract_techniques s)) as Hlen.
      destruct (V1.tactic_order_values (V1.extract_techniques s))
        as [|x [|y [|z l]]]; [done|done| |simpl in Hlen; lia].
      unfold V1.count_violations.
      destruct (x >? y); [destruct (x - y >? 3)|]; by vm_compute.
Qed.

Lemma C1_short_inputs_witness :
  V1.evaluate_logical_coherence None = 1 /\
  V2.score_logical_coherence None = Ok 5 /\
  V2.score_logical_coherence (Some "T1059 T1566") = Ok 5 /\
  V1.evaluate_logical_coherence (Some "T1059 T1566") = 5.
Proof.
  destruct (C1_short_inputs None) as [H _].
  destruct (C1_short_inputs (Some "T1059 T1566")) as [_ H'].
  destruct (H eq_refl) as [H1 H2].
  destruct H' as [H3 H4]; [vm_compute; lia|].
  split; [exact H1|]. split; [exact H2|]. split; [exact H3|].
  rewrite H4. vm_compute. reflexivity.
Defined.

(** The rule of the specification fails on both scripts: the first
    returns 10 on the single technique [T1566], the second returns 5 on
    the empty string. *)
Lemma C1_short_input_rule_fails :
  ~ short_input_rule V1.extract_techniques coherence_v1 /\
  ~ short_input_rule V2.extract_techniques V2.score_logical_coherence.
Proof.
  split; intros H.
  - destruct (H (Some "T1566")) as [_ H2].
    assert (E : coherence_v1 (Some "T1566") = Ok 5)
      by (apply H2; vm_compute; lia).
    vm_compute in E. discriminate E.
  - destruct (H (Some "")) as [H1 _].
    assert (E : V2.score_logical_coherence (Some "") = Ok 1)
      by (apply H1; reflexivity).
    vm_compute in E. discriminate E.
Qed.

(** C4, as the code has it: [T1071 T1566] resolves to command-and-control
    followed by initial-access; the first script scores it 2, the second
    script returns 5 because fewer than three techniques are extracted. *)
Theorem C4_c2_then_initial_access :
  V2.get_tactic_sequence (V2.extract_techniques (Some "T1071 T1566")) =
    ["command-and-control"; "initial-access"] /\
  V1.evaluate_logical_coherence (Some "T1071 T1566") = 2 /\
  V2.score_logical_coherence (Some "T1071 T1566") = Ok 5.
Proof. by vm_compute. Qed.

(** The second script does not score [T1071 T1566] at 3 or below. *)
Lemma C4_v2_above_3 :
  ~ (exists n, V2.score_logical_coherence (Some "T1071 T1566") = Ok n /\
               n <= 3).
Proof.
  intros (n & E & Hn). vm_compute in E. injection E as <-. lia.
Qed.

(** ** The realism scorer *)

(** Case analysis on every integer comparison and every remaining
    condition of the goal, leaving linear arithmetic. *)
Ltac split_conditions :=
  rewrite ?Z.geb_leb, ?Z.gtb_ltb;
  repeat match goal with
         | |- context [?a <=? ?b] => destruct (Z.leb_spec a b)
         | |- context [?a <? ?b] => destruct (Z.ltb_spec a b)
         | |- context [?a =? ?b] => destruct (Z.eqb_spec a b)
         end;
  repeat case_match; try lia.

(** C10: whenever at least one technique is extracted, both realism
    scorers return at least 2, for every APT name: the penalties never
    bring the score below 2 before the clamp. *)
Theorem C10_realism_at_least_2 (s : option string) (apt : string) :
  V1.extract_techniques s ≠ [] ->
  2 <= V1.evaluate_operational_realism s apt /\
  2 <= V2.score_operational_realism s apt.
Proof.
  intros H. split.
  - unfold V1.evaluate_operational_realism.
    destruct (V1.extract_techniques s) as [|t l]; [done|]. cbv zeta.
    generalize (V1.essential_present (V1.technique_tactics (t :: l))).
    generalize (Z.of_nat (length (t :: l))). intros n p.
    set (x := if p >=? 2 then _ else _).
    assert (Hx : 3 <= x) by (subst x; split_conditions).
    clearbody x. repeat case_match; lia.
  - unfold V2.score_operational_realism.
    change (V2.extract_techniques s) with (V1.extract_techniques s).
    destruct (V1.extract_techniques s) as [|t l]; [done|]. cbv zeta.
    generalize (V2.essential_count (V2.get_tactic_sequence (t :: l))).
    generalize (Z.of_nat (length (t :: l))). intros n p.
    set (x := if p >=? 3 then _ else _).
    assert (Hx : 4 <= x) by (subst x; split_conditions).
    clearbody x. repeat case_match; lia.
Qed.

Lemma C10_realism_at_least_2_witness :
  2 <= V1.evaluate_operational_realism (Some "T1486") "APT29" /\
  2 <= V2.score_operational_realism (Some "T1486") "APT29".
Proof.
  apply (C10_realism_at_least_2 (Some "T1486") "APT29").
  vm_compute. discriminate.
Defined.

Lemma sum_bools_3 (a b c : bool) :
  0 <= V2.sum_bools [a; b; c] <= 3.
Proof. destruct a, b, c; vm_compute; split; discriminate. Qed.

Lemma essential_count_range tactics :
  0 <= V2.essential_count tactics <= 3.
Proof. unfold V2.essential_count. cbv zeta. apply sum_bools_3. Qed.

(** C6: with the number of extracted techniques and the APT name fixed,
    and the other tactic facts read by the scorer held equal (impact,
    collection and exfiltration in the first script; these and
    credential-access in the second), a sequence with at least as many
    essential tactic groups scores at least as high, in both scripts. *)
Theorem C6_realism_monotone (s1 s2 : option string) (apt : string) :
  length (V1.extract_techniques s1) = length (V1.extract_techniques s2) ->
  (let T1 := V1.technique_tactics (V1.extract_techniques s1) in
   let T2 := V1.technique_tactics (V1.extract_techniques s2) in
   in_set "impact" T1 = in_set "impact" T2 ->
   in_set "collection" T1 = in_set "collection" T2 ->
   in_set "exfiltration" T1 = in_set "exfiltration" T2 ->
   V1.essential_present T1 <= V1.essential_present T2 ->
   V1.evaluate_operational_realism s1 apt
   <= V1.evaluate_operational_realism s2 apt) /\
  (let t1 := V2.get_tactic_sequence (V2.extract_techniques s1) in
   let t2 := V2.get_tactic_sequence (V2.extract_techniques s2) in
   let T1 : gset string := list_to_set t1 in
   let T2 : gset string := list_to_set t2 in
   in_set "impact" T1 = in_set "impact" T2 ->
   in_set "collection" T1 = in_set "collection" T2 ->
   in_set "exfiltration" T1 = in_set "exfiltration" T2 ->
   in_set "credential-access" T1 = in_set "credential-access" T2 ->
   V2.essential_count t1 <= V2.essential_count t2 ->
   V2.score_operational_realism s1 apt
   <= V2.score_operational_realism s2 apt).
Proof.
  intros Hlen. split.
  - cbv zeta. unfold V1.evaluate_operational_realism.
    destruct (V1.extract_techniques s1) as [|a1 l1],
             (V1.extract_techniques s2) as [|a2 l2];
      try discriminate Hlen; [done|].
    cbv zeta. intros -> -> ->. rewrite Hlen.
    generalize (V1.essential_present (V1.technique_tactics (a1 :: l1))).
    generalize (V1.essential_present (V1.technique_tactics (a2 :: l2))).
    generalize (Z.of_nat (length (a2 :: l2))). intros n p2 p1 Hp.
    set (x1 := if p1 >=? 2 then _ else _).
    set (x2 := if p2 >=? 2 then _ else _).
    assert (Hx : x1 <= x2) by (subst x1 x2; split_conditions).
    clearbody x1 x2. repeat case_match; lia.
  - cbv zeta. unfold V2.score_operational_realism.
    change V2.extract_techniques with V1.extract_techniques.
    destruct (V1.extract_techniques s1) as [|a1 l1],
             (V1.extract_techniques s2) as [|a2 l2];
      try discriminate Hlen; [done|].
    cbv zeta. intros -> -> -> ->. rewrite Hlen.
    pose proof (essential_count_range (V2.get_tactic_sequence (a1 :: l1))).
    pose proof (essential_count_range (V2.get_tactic_sequence (a2 :: l2))).
    revert H H0.
    generalize (V2.essential_count (V2.get_tactic_sequence (a1 :: l1))).
    generalize (V2.essential_count (V2.get_tactic_sequence (a2 :: l2))).
    generalize (Z.of_nat (length (a2 :: l2))). intros n p2 p1 Hp1 Hp2 Hp.
    set (x1 := if p1 >=? 3 then _ else _).
    set (x2 := if p2 >=? 3 then _ else _).
    assert (Hx : x1 <= x2) by (subst x1 x2; split_conditions).
    clearbody x1 x2. repeat case_match; lia.
Qed.

Lemma C6_realism_monotone_witness :
  V1.evaluate_operational_realism (Some "T1082") "APT29"
  <= V1.evaluate_operational_realism (Some "T1059") "APT29" /\
  V2.score_operational_realism (Some "T1082") "APT29"
  <= V2.score_operational_realism (Some "T1059") "APT29".
Proof.
  destruct (C6_realism_monotone (Some "T1082") (Some "T1059") "APT29"
              eq_refl) as [H1 H2].
  cbv zeta in H1, H2.
  split; [apply H1|apply H2];
    solve [vm_compute; reflexivity | vm_compute; discriminate].
Defined.

(** ** The objective classifier reads tactic sets only *)

Lemma in_set_resolved_v1 x (s s' : option string) :
  resolved_tactics_v1 s = resolved_tactics_v1 s' ->
  x ≠ "unknown" ->
  in_set x (V1.technique_tactics (V1.extract_techniques s)) =
  in_set x (V1.technique_tactics (V1.extract_techniques s')).
Proof.
  unfold resolved_tactics_v1, in_set. intros H Hx.
  apply bool_decide_ext.
  assert (Hd : forall T : gset string, x ∈ T <-> x ∈ T ∖ {["unknown"]}).
  { intros T. rewrite elem_of_difference, elem_of_singleton. tauto. }
  by rewrite (Hd (V1.technique_tactics _)), H, <- Hd.
Qed.

Lemma infer_objective_resolved (s s' : option string) :
  resolved_tactics_v1 s = resolved_tactics_v1 s' ->
  V1.infer_objective_from_sequence s = V1.infer_objective_from_sequence s'.
Proof.
  intros H. unfold V1.infer_objective_from_sequence. cbv zeta.
  by rewrite !(in_set_resolved_v1 _ s s' H).
Qed.

(** C9, as the code has it: when the two candidates are both present or
    both missing/empty, inputs with the same set of resolved tactics on
    the seed side and on the candidate side, and the same APT name, get
    the same answer, in both scripts. *)
Theorem C9_tactic_sets_decide (seed seed' cand cand' : option string)
    (apt : string) :
  V1.missing cand = V1.missing cand' ->
  (resolved_tactics_v1 seed = resolved_tactics_v1 seed' ->
   resolved_tactics_v1 cand = resolved_tactics_v1 cand' ->
   V1.evaluate_same_objective seed cand apt =
   V1.evaluate_same_objective seed' cand' apt) /\
  (resolved_tactics_v2 seed = resolved_tactics_v2 seed' ->
   resolved_tactics_v2 cand = resolved_tactics_v2 cand' ->
   V2.determine_same_objective seed cand apt =
   V2.determine_same_objective seed' cand' apt).
Proof.
  intros Hm. split; intros Hs Hc.
  - unfold V1.evaluate_same_objective.
    by rewrite Hm, (infer_objective_resolved _ _ Hs),
               (infer_objective_resolved _ _ Hc).
  - unfold V2.determine_same_objective, resolved_tactics_v2 in *.
    change V2.missing with V1.missing.
    by rewrite Hm, Hs, Hc.
Qed.

Lemma C9_tactic_sets_decide_witness :
  V1.evaluate_same_objective (Some "T1560 T1041") (Some "T1486 T1059") "FIN7"
  = V1.evaluate_same_objective (Some "T1041 T1560 T1041")
      (Some "T1059, T1486.001, T1059") "FIN7" /\
  V2.determine_same_objective (Some "T1560 T1041") (Some "T1486 T1059") "FIN7"
  = V2.determine_same_objective (Some "T1041 T1560 T1041")
      (Some "T1059, T1486.001, T1059") "FIN7".
Proof.
  destruct (C9_tactic_sets_decide
              (Some "T1560 T1041") (Some "T1041 T1560 T1041")
              (Some "T1486 T1059") (Some "T1059, T1486.001, T1059")
              "FIN7" eq_refl) as [H1 H2].
  split; [apply H1|apply H2]; vm_compute; reflexivity.
Defined.

(** As stated the property fails in both scripts: the candidates [""] and
    ["n/a"] both resolve to the empty tactic set, yet against the seed
    [T1560] the first is answered [No] and the second [Yes]. *)
Lemma C9_empty_candidate_differs :
  ~ depends_only_on_tactic_sets resolved_tactics_v1
      V1.evaluate_same_objective /\
  ~ depends_only_on_tactic_sets resolved_tactics_v2
      V2.determine_same_objective.
Proof.
  split; intros H;
    specialize (H (Some "T1560") (Some "T1560") (Some "") (Some "n/a")
                  "APT29" eq_refl);
    (assert (E : "No" = "Yes") by (apply H; vm_compute; reflexivity));
    discriminate E.
Qed.

(** ** No exception escapes the scorers *)

Lemma block_values (P : string -> Prop) tactic codes :
  P tactic -> Forall (fun kv : string * string => P kv.2) (block tactic codes).
Proof.
  intros H. unfold block. induction codes; simpl; constructor; auto.
Qed.

(** Every tactic of the second script's technique table has a position
    in its [TACTIC_ORDER]. *)
Lemma technique_table_ordered technique :
  let tactic := get V2.TECHNIQUE_TO_TACTIC technique "unknown" in
  tactic = "unknown" \/ is_Some (V2.TACTIC_ORDER !! tactic).
Proof.
  cbv zeta. unfold V2.TECHNIQUE_TO_TACTIC.
  apply (get_dict_Forall
           (fun v => v = "unknown" \/ is_Some (V2.TACTIC_ORDER !! v))
           V2.TECHNIQUE_TO_TACTIC_items); [by left|].
  unfold V2.TECHNIQUE_TO_TACTIC_items.
  repeat (apply Forall_app; split);
    apply (block_values
             (fun v => v = "unknown" \/ is_Some (V2.TACTIC_ORDER !! v)));
    right; vm_compute; eauto.
Qed.

Lemma tactic_sequence_ordered techniques :
  Forall (fun t => is_Some (V2.TACTIC_ORDER !! t))
         (V2.get_tactic_sequence techniques).
Proof.
  induction techniques as [|t l IH]; [constructor|].
  cbn [V2.get_tactic_sequence]. cbv zeta.
  case_bool_decide as Hu; [|done].
  constructor; [|done].
  destruct (technique_table_ordered (split_dot_head t)) as [E|E];
    [contradiction|exact E].
Qed.

Lemma traverse_subscript {V : Type} (d : gmap string V) keys :
  Forall (fun k => is_Some (d !! k)) keys ->
  exists vs, traverse (subscript d) keys = Ok vs /\
             length vs = length keys.
Proof.
  induction 1 as [|k l [v Hv] _ (vs & IH & Hlen)].
  - by exists [].
  - exists (v :: vs).
    assert (Hk : subscript d k = Ok v) by (unfold subscript; by rewrite Hv).
    cbn [traverse]. rewrite Hk, IH. split; [done|]. simpl. by rewrite Hlen.
Qed.

Lemma score_logical_coherence_total (s : option string) :
  exists n, V2.score_logical_coherence s = Ok n /\ 1 <= n <= 10.
Proof.
  unfold V2.score_logical_coherence, V2.tactic_nums. cbv zeta.
  destruct (_ || _); [exists 5; split; [done|lia]|].
  destruct (bool_decide (V2.get_tactic_sequence _ = []));
    [exists 4; split; [done|lia]|].
  destruct (traverse_subscript V2.TACTIC_ORDER _
              (tactic_sequence_ordered (V2.extract_techniques s)))
    as (nums & -> & _).
  cbv [mbind result_bind].
  destruct (V2.count_violations 0 0 nums) as [violations major].
  unfold truediv.
  destruct (Z.of_nat (length nums) - 1 =? 0);
    [exists 7; split; [done|lia]|].
  eexists. split; [reflexivity|lia].
Qed.

Lemma clamp_range x : 1 <= Z.max 1 (Z.min 10 x) <= 10.
Proof. lia. Qed.

(** C8: on every text or missing input no scorer raises.  In the second
    script every tactic that reaches the [TACTIC_ORDER[t]] lookup is a key
    of [TACTIC_ORDER], and the coherence scorer, whose lookup and
    division could raise, returns a score from 1 to 10; the scorers
    without a raising operation return a score from 1 to 10, and the
    classifiers answer [Yes] or [No]. *)
Theorem C8_scorers_total (s seed : option string) (apt : string) :
  Forall (fun t => is_Some (V2.TACTIC_ORDER !! t))
         (V2.get_tactic_sequence (V2.extract_techniques s)) /\
  (exists n, V2.score_logical_coherence s = Ok n /\ 1 <= n <= 10) /\
  1 <= V1.evaluate_logical_coherence s <= 10 /\
  1 <= V1.evaluate_operational_realism s apt <= 10 /\
  1 <= V2.score_operational_realism s apt <= 10 /\
  V1.evaluate_same_objective seed s apt ∈ ["Yes"; "No"] /\
  V2.determine_same_objective seed s apt ∈ ["Yes"; "No"].
Proof.
  split; [apply tactic_sequence_ordered|].
  split; [apply score_logical_coherence_total|].
  split.
  { unfold V1.evaluate_logical_coherence.
    destruct (V1.extract_techniques s); [lia|]. cbv zeta.
    destruct (V1.tactic_order_values _); [lia|apply clamp_range]. }
  split.
  { unfold V1.evaluate_operational_realism.
    destruct (V1.extract_techniques s); [lia|apply clamp_range]. }
  split.
  { unfold V2.score_operational_realism.
    destruct (V2.extract_techniques s); [lia|apply clamp_range]. }
  split.
  - unfold V1.evaluate_same_objective. cbv zeta.
    repeat case_match; repeat constructor.
  - unfold V2.determine_same_objective. cbv zeta.
    destruct (V2.missing s); [repeat constructor|].
    destruct (truthy (_ ∩ _)); [repeat constructor|].
    destruct (existsb _ _); repeat constructor.
Qed.

(** ** The coherence scorer on sequences in kill-chain order *)

Lemma count_violations_v1_sorted values acc :
  Sorted Z.le values -> V1.count_violations acc values = acc.
Proof.
  induction values as [|x [|y l] IH]; intros Hs; [done|done|].
  apply Sorted_inv in Hs as [Hs Hd]. apply HdRel_inv in Hd.
  cbn [V1.count_violations].
  replace (x >? y) with false by (symmetry; rewrite Z.gtb_ltb; apply Z.ltb_ge; lia).
  by apply IH.
Qed.

Lemma count_violations_v2_sorted nums v m :
  Sorted Z.le nums -> V2.count_violations v m nums = (v, m).
Proof.
  induction nums as [|x [|y l] IH]; intros Hs; [done|done|].
  apply Sorted_inv in Hs as [Hs Hd]. apply HdRel_inv in Hd.
  cbn [V2.count_violations].
  replace (x >? y) with false by (symmetry; rewrite Z.gtb_ltb; apply Z.ltb_ge; lia).
  by apply IH.
Qed.

Lemma traverse_length {A B : Type} (f : A -> result B) l vs :
  traverse f l = Ok vs -> length vs = length l.
Proof.
  revert vs. induction l as [|x l IH]; intros vs; cbn [traverse].
  - by intros [= <-].
  - destruct (f x) as [y|e]; [|done]. cbv [mbind result_bind].
    destruct (traverse f l) as [ys|e]; [|done].
    intros [= <-]. simpl. by rewrite (IH ys).
Qed.

Lemma truediv_zero t : t ≠ 0 -> truediv 0 t = Ok 0%Q.
Proof.
  intros Ht. unfold truediv.
  by replace (t =? 0) with false by (symmetry; by apply Z.eqb_neq).
Qed.

(** C2, as the code has it: when the resolved positions never decrease,
    the first script returns 10 provided at least one technique resolves;
    the second script returns 10 provided at least three techniques are
    extracted, at least two resolve, and either an initial-access or
    reconnaissance tactic is among the first seven resolved tactics or at
    most six techniques are extracted. *)
Theorem C2_nondecreasing_scores_10 (s : option string) :
  (let values := V1.tactic_order_values (V1.extract_techniques s) in
   values ≠ [] -> Sorted Z.le values ->
   V1.evaluate_logical_coherence s = 10) /\
  (forall nums,
     let techniques := V2.extract_techniques s in
     let tactics := V2.get_tactic_sequence techniques in
     (3 <= length techniques)%nat ->
     V2.tactic_nums tactics = Ok nums ->
     (2 <= length nums)%nat ->
     Sorted Z.le nums ->
     V2.has_initial_access tactics = true \/ (length techniques <= 6)%nat ->
     V2.score_logical_coherence s = Ok 10).
Proof.
  split.
  - cbv zeta. intros Hne Hs.
    rewrite coherence_v1_values by (by intros E; rewrite E in Hne).
    destruct (V1.tactic_order_values _) as [|x l] eqn:E; [done|].
    cbv zeta. by rewrite count_violations_v1_sorted.
  - cbv zeta. intros nums Hlen Hnums Hn Hs Hinit.
    unfold V2.score_logical_coherence. cbv zeta.
    replace (Z.of_nat (length (V2.extract_techniques s)) <? 3) with false
      by (symmetry; apply Z.ltb_ge; lia).
    rewrite (bool_decide_eq_false_2 (V2.extract_techniques s = []))
      by (intros E; rewrite E in Hlen; simpl in Hlen; lia).
    pose proof (traverse_length _ _ _ Hnums) as Hl.
    rewrite (bool_decide_eq_false_2 (V2.get_tactic_sequence _ = []))
      by (intros E; rewrite E in Hl; simpl in Hl; lia).
    cbv [orb]. rewrite Hnums. cbv [mbind result_bind].
    rewrite count_violations_v2_sorted by done.
    replace (Z.of_nat (length nums) - 1 =? 0) with false
      by (symmetry; apply Z.eqb_neq; lia).
    rewrite truediv_zero by lia.
    change (V2.violation_score 0 0) with 10.
    replace (negb (V2.has_initial_access _) && (_ >? 6)) with false.
    + by destruct (_ && _ && _).
    + symmetry. destruct Hinit as [->|Hle]; [done|].
      rewrite andb_false_iff. right. rewrite Z.gtb_ltb. apply Z.ltb_ge. lia.
Qed.

Lemma C2_nondecreasing_scores_10_witness :
  V1.evaluate_logical_coherence (Some "T1566 T1059 T1547 T1071") = 10 /\
  V2.score_logical_coherence (Some "T1566 T1059 T1547 T1071") = Ok 10.
Proof.
  destruct (C2_nondecreasing_scores_10 (Some "T1566 T1059 T1547 T1071"))
    as [H1 H2].
  cbv zeta in H1, H2. split.
  - apply H1; [vm_compute; discriminate|].
    replace (V1.tactic_order_values _) with [2; 3; 5; 11]
      by (vm_compute; reflexivity).
    repeat constructor; lia.
  - apply (H2 [3; 4; 6; 12]).
    + vm_compute. lia.
    + vm_compute. reflexivity.
    + simpl. lia.
    + repeat constructor; lia.
    + left. vm_compute. reflexivity.
Defined.

(** The rule fails in both scripts: the first returns 1 on a missing
    sequence, whose resolved positions are vacuously non-decreasing; the
    second returns 8 on seven execution techniques in a row. *)
Lemma C2_nondecreasing_rule_fails :
  ~ nondecreasing_rule_v1 /\ ~ nondecreasing_rule_v2.
Proof.
  split; intros H.
  - specialize (H None). vm_compute in H. specialize (H (Sorted_nil _)).
    discriminate H.
  - specialize
      (H (Some "T1059 T1059 T1059 T1059 T1059 T1059 T1059")
         [4; 4; 4; 4; 4; 4; 4]).
    assert (E : V2.score_logical_coherence
                  (Some "T1059 T1059 T1059 T1059 T1059 T1059 T1059")
                = Ok 10).
    { apply H; [vm_compute; reflexivity|repeat constructor; lia]. }
    vm_compute in E. discriminate E.
Qed.

(** ** The violation tables *)

Lemma Qle_bool_false x y : Qle_bool x y = false -> (y < x)%Q.
Proof.
  intros H. apply Qnot_le_lt. intros Hle.
  apply Qle_bool_iff in Hle. congruence.
Qed.

(** Turn the outcome of every rational test in the context into an
    order fact. *)
Ltac order_facts :=
  repeat match goal with
         | H : Qle_bool _ _ = true |- _ => apply Qle_bool_iff in H
         | H : Qle_bool _ _ = false |- _ => apply Qle_bool_false in H
         | H : Qeq_bool _ _ = true |- _ => apply Qeq_bool_iff in H
         | H : Qeq_bool _ _ = false |- _ => apply Qeq_bool_neq in H
         end.

Lemma ratio_band_zero : ratio_band 0 = 10.
Proof. reflexivity. Qed.

Lemma ratio_band_range r : 4 <= ratio_band r <= 10.
Proof. unfold ratio_band. repeat case_match; lia. Qed.

Lemma ratio_band_mono r1 r2 :
  (0 <= r1)%Q -> (r1 <= r2)%Q -> ratio_band r2 <= ratio_band r1.
Proof.
  intros H0 H12. unfold ratio_band.
  generalize (float_literal (5 # 100)) (float_literal (15 # 100))
             (float_literal (25 # 100)) (float_literal (35 # 100))
             (float_literal (5 # 10)).
  intros c1 c2 c3 c4 c5.
  repeat case_match; try lia; order_facts; exfalso; lra.
Qed.

Lemma ratio_band_above_half r : (1 # 2 < r)%Q -> ratio_band r = 4.
Proof.
  intros H. unfold ratio_band.
  assert (H1 : (float_literal (5 # 100) <= 1 # 2)%Q)
    by (apply Qle_bool_iff; by vm_compute).
  assert (H2 : (float_literal (15 # 100) <= 1 # 2)%Q)
    by (apply Qle_bool_iff; by vm_compute).
  assert (H3 : (float_literal (25 # 100) <= 1 # 2)%Q)
    by (apply Qle_bool_iff; by vm_compute).
  assert (H4 : (float_literal (35 # 100) <= 1 # 2)%Q)
    by (apply Qle_bool_iff; by vm_compute).
  assert (H5 : (float_literal (5 # 10) <= 1 # 2)%Q)
    by (apply Qle_bool_iff; by vm_compute).
  revert H1 H2 H3 H4 H5.
  generalize (float_literal (5 # 100)) (float_literal (15 # 100))
             (float_literal (25 # 100)) (float_literal (35 # 100))
             (float_literal (5 # 10)).
  intros c1 c2 c3 c4 c5 H1 H2 H3 H4 H5.
  repeat case_match; try done; order_facts; exfalso; lra.
Qed.

Lemma violation_score_v1_zero n : V1.violation_score 0 n = 10.
Proof. reflexivity. Qed.

Lemma violation_score_v1_range v n : 2 <= V1.violation_score v n <= 10.
Proof. unfold V1.violation_score. repeat case_match; lia. Qed.

Lemma violation_score_v1_mono v1 v2 n :
  0 <= v1 <= v2 -> V1.violation_score v2 n <= V1.violation_score v1 n.
Proof.
  intros [H0 H12].
  destruct (Z.eq_dec v1 0) as [->|Hv1].
  { rewrite violation_score_v1_zero.
    apply (violation_score_v1_range v2 n). }
  assert (Hq : (inject_Z v1 <= inject_Z v2)%Q) by (by rewrite <- Zle_Qle).
  unfold V1.violation_score, V1.within.
  replace (v1 =? 0) with false by (symmetry; by apply Z.eqb_neq).
  replace (v2 =? 0) with false by (symmetry; apply Z.eqb_neq; lia).
  revert Hq. generalize (inject_Z v1) (inject_Z v2). intros q1 q2 Hq.
  generalize (int_mul_float n (float_literal (1 # 10)))
             (int_mul_float n (float_literal (2 # 10)))
             (int_mul_float n (float_literal (3 # 10)))
             (int_mul_float n (float_literal (4 # 10)))
             (int_mul_float n (float_literal (5 # 10)))
             (int_mul_float n (float_literal (7 # 10)))
             (int_mul_float n (float_literal (85 # 100))).
  intros c1 c2 c3 c4 c5 c6 c7.
  repeat case_match; try lia; order_facts; exfalso; lra.
Qed.

Lemma coherence_v2_band (s : option string) nums violations :
  let techniques := V2.extract_techniques s in
  let tactics := V2.get_tactic_sequence techniques in
  (3 <= length techniques)%nat ->
  V2.tactic_nums tactics = Ok nums ->
  (2 <= length nums)%nat ->
  V2.count_violations 0 0 nums = (violations, 0) ->
  V2.score_logical_coherence s =
    Ok (structure_adjust tactics techniques
          (ratio_band
             (round53 (inject_Z violations
                       / inject_Z (Z.of_nat (length nums) - 1))))).
Proof.
  cbv zeta. intros Hlen Hnums Hn Hcount.
  unfold V2.score_logical_coherence. cbv zeta.
  replace (Z.of_nat (length (V2.extract_techniques s)) <? 3) with false
    by (symmetry; apply Z.ltb_ge; lia).
  rewrite (bool_decide_eq_false_2 (V2.extract_techniques s = []))
    by (intros E; rewrite E in Hlen; simpl in Hlen; lia).
  pose proof (traverse_length _ _ _ Hnums) as Hl.
  rewrite (bool_decide_eq_false_2 (V2.get_tactic_sequence _ = []))
    by (intros E; rewrite E in Hl; simpl in Hl; lia).
  cbv [orb]. rewrite Hnums. cbv [mbind result_bind]. rewrite Hcount.
  unfold truediv.
  replace (Z.of_nat (length nums) - 1 =? 0) with false
    by (symmetry; apply Z.eqb_neq; lia).
  reflexivity.
Qed.

(** ** Rounding to 53 bits near one half *)

Lemma round_half_even_lower y :
  (y - (1 # 2) <= inject_Z (round_half_even y))%Q.
Proof.
  unfold round_half_even. cbv zeta.
  pose proof (Qfloor_le y) as Hlo. pose proof (Qlt_floor y) as Hhi.
  rewrite inject_Z_plus in Hhi.
  destruct (Qcompare_spec (y - inject_Z (Qfloor y)) (1 # 2)) as [E|E|E].
  - destruct (Z.even _); rewrite ?inject_Z_plus; lra.
  - lra.
  - rewrite inject_Z_plus. lra.
Qed.

Lemma pow2_pos e : (0 < pow2 e)%Q.
Proof. apply Qpower_0_lt. reflexivity. Qed.

Lemma pow2_le e e' : e <= e' -> (pow2 e <= pow2 e')%Q.
Proof. intros H. apply Qpower_le_compat_l; [done|]. by vm_compute. Qed.

Lemma round53_pos_lower x :
  (x - pow2 (ilog2 x - 52) * (1 # 2) <= round53_pos x)%Q.
Proof.
  unfold round53_pos. cbv zeta.
  set (p := pow2 (ilog2 x - 52)).
  assert (Hp : (0 < p)%Q) by apply pow2_pos.
  pose proof (round_half_even_lower (x / p)) as H.
  apply (Qmult_le_compat_r _ _ p) in H; [|lra].
  assert (E : ((x / p - (1 # 2)) * p == x - p * (1 # 2))%Q)
    by (field; lra).
  by rewrite E in H.
Qed.

Lemma ilog2_nonpos x :
  0 < Qnum x <= Zpos (Qden x) -> ilog2 x <= 0.
Proof.
  intros [H0 H1]. unfold ilog2. cbv zeta.
  pose proof (Z.log2_le_mono _ _ H1).
  destruct (Qle_bool _ _); lia.
Qed.

Lemma round53_above_half v t :
  0 < t < 2 ^ 52 -> v <= t -> t < 2 * v ->
  (1 # 2 < round53 (inject_Z v / inject_Z t))%Q.
Proof.
  intros [Ht0 Ht] Hv Hvt.
  destruct t as [|p|p]; try lia.
  destruct v as [|w|w]; try lia.
  change (inject_Z (Z.pos w) / inject_Z (Z.pos p))%Q
    with (Z.pos w * 1 # 1 * p)%Q.
  rewrite Z.mul_1_r, Pos.mul_1_l. unfold round53. cbn [Qnum].
  pose proof (round53_pos_lower (Z.pos w # p)) as Hlow.
  assert (He : ilog2 (Z.pos w # p) - 52 <= -52).
  { pose proof (ilog2_nonpos (Z.pos w # p)) as Hi.
    cbn [Qnum Qden] in Hi. lia. }
  apply pow2_le in He.
  change (pow2 (-52)) with (1 # 2 ^ 52)%Q in He.
  assert (Hx : ((1 # 2) + (1 # 2 ^ 53) < Z.pos w # p)%Q).
  { unfold Qlt. cbn [Qnum Qden Qplus].
    change (Z.pos (2 ^ 53)) with (2 ^ 53) in *. lia. }
  assert (Hc : ((1 # 2 ^ 52) * (1 # 2) == 1 # 2 ^ 53)%Q) by reflexivity.
  lra.
Qed.

Lemma count_violations_v2_bound nums v m v' m' :
  V2.count_violations v m nums = (v', m') ->
  v <= v' <= v + Z.of_nat (length nums - 1) /\ m <= m'.
Proof.
  revert v m. induction nums as [|x [|y l] IH]; intros v m.
  - intros [= <- <-]. simpl. lia.
  - intros [= <- <-]. simpl. lia.
  - cbn [V2.count_violations]. cbv zeta. intros H.
    assert (Hl : Z.of_nat (length (x :: y :: l) - 1)
                 = 1 + Z.of_nat (length (y :: l) - 1)) by (simpl; lia).
    rewrite Hl.
    destruct (x >? y); [destruct (x - y >? 2); destruct (x - y >? 5)|];
      apply IH in H; lia.
Qed.

(** C3, as the code has it.  In the second script, when at least three
    techniques are extracted, at least two resolve and no backward step
    exceeds 5 positions, the score is the bonus/penalty adjustment of the
    band that a fixed step table assigns to the binary64 quotient of the
    violations by the resolved length minus one; the table is monotone
    non-increasing, gives 10 for no violation and its lowest band, 4,
    above one half.  In the first script the band is read from the
    weighted violation count and the resolved length itself; it is 10 for
    no violation, non-increasing in the count, and never below 2. *)
Theorem C3_violation_bands (s : option string) :
  (forall r1 r2, (0 <= r1)%Q -> (r1 <= r2)%Q ->
                 ratio_band r2 <= ratio_band r1) /\
  (forall r, 4 <= ratio_band r <= 10) /\
  (forall nums violations,
     let techniques := V2.extract_techniques s in
     let tactics := V2.get_tactic_sequence techniques in
     let transitions := Z.of_nat (length nums) - 1 in
     (3 <= length techniques)%nat ->
     V2.tactic_nums tactics = Ok nums ->
     (2 <= length nums)%nat ->
     V2.count_violations 0 0 nums = (violations, 0) ->
     exists ratio,
       truediv violations transitions = Ok ratio /\
       V2.score_logical_coherence s =
         Ok (structure_adjust tactics techniques (ratio_band ratio)) /\
       (violations = 0 -> ratio_band ratio = 10) /\
       (transitions < 2 ^ 52 -> transitions < 2 * violations ->
        ratio_band ratio = 4)) /\
  (let values := V1.tactic_order_values (V1.extract_techniques s) in
   values ≠ [] ->
   V1.evaluate_logical_coherence s =
     V1.violation_score (V1.count_violations 0 values)
                        (Z.of_nat (length values))) /\
  (forall n, V1.violation_score 0 n = 10) /\
  (forall v1 v2 n, 0 <= v1 <= v2 ->
                   V1.violation_score v2 n <= V1.violation_score v1 n) /\
  (forall v n, 2 <= V1.violation_score v n <= 10).
Proof.
  split; [apply ratio_band_mono|].
  split; [apply ratio_band_range|].
  split.
  { cbv zeta. intros nums violations Hlen Hnums Hn Hcount.
    pose proof (count_violations_v2_bound _ _ _ _ _ Hcount) as [Hv _].
    assert (Hl : Z.of_nat (length nums - 1) = Z.of_nat (length nums) - 1)
      by lia.
    rewrite Hl in Hv.
    eexists. split; [|split; [|split]].
    - unfold truediv.
      replace (Z.of_nat (length nums) - 1 =? 0) with false
        by (symmetry; apply Z.eqb_neq; lia).
      reflexivity.
    - by apply coherence_v2_band.
    - by intros ->.
    - intros Hb Hhalf. apply ratio_band_above_half.
      apply round53_above_half; lia. }
  split.
  { cbv zeta. intros Hne.
    rewrite coherence_v1_values by (by intros E; rewrite E in Hne).
    destruct (V1.tactic_order_values _) as [|x l]; [done|]. cbv zeta.
    pose proof (violation_score_v1_range
                  (V1.count_violations 0 (x :: l))
                  (Z.of_nat (length (x :: l)))).
    lia. }
  split; [apply violation_score_v1_zero|].
  split; [apply violation_score_v1_mono|apply violation_score_v1_range].
Qed.

Lemma C3_violation_bands_witness :
  V2.score_logical_coherence (Some "T1071 T1082 T1059") = Ok 4 /\
  V1.evaluate_logical_coherence (Some "T1071 T1082 T1059") = 2.
Proof.
  destruct (C3_violation_bands (Some "T1071 T1082 T1059"))
    as (_ & _ & H2 & H1 & _).
  cbv zeta in H1, H2. split.
  - destruct (H2 [12; 9; 4] 2) as (ratio & _ & Hs & _ & H4).
    + vm_compute. lia.
    + vm_compute. reflexivity.
    + simpl. lia.
    + vm_compute. reflexivity.
    + rewrite Hs, H4.
      * vm_compute. reflexivity.
      * vm_compute. reflexivity.
      * vm_compute. reflexivity.
  - rewrite H1.
    + vm_compute. reflexivity.
    + vm_compute. discriminate.
Defined.

(** The first script does not follow the rule, whether violations are
    counted with its own weights or as decreasing pairs: [T1059 T1566]
    and [T1071 T1566] both have one decreasing pair out of one
    transition, a ratio above 50%, and score 5 and 2. *)
Lemma C3_ratio_table_rule_fails :
  ~ ratio_table_rule resolved_positions_v1 (V1.count_violations 0)
      coherence_v1 /\
  ~ ratio_table_rule resolved_positions_v1 decreasing_pairs coherence_v1.
Proof.
  split; intros (table & Hlow & Hs);
    pose proof (Hs (Some "T1059 T1566")) as Ha;
    pose proof (Hs (Some "T1071 T1566")) as Hb;
    vm_compute in Ha, Hb;
    specialize (Ha (le_n 2)); specialize (Hb (le_n 2));
    injection Ha as Ha; injection Hb as Hb;
    match type of Ha with
    | _ = table ?ra =>
        match type of Hb with
        | _ = table ?rb =>
            assert (Hab : table ra <= table rb)
              by (apply Hlow; reflexivity)
        end
    end;
    lia.
Qed.
(** ** The technique parser *)

Lemma match_technique_shape s n :
  match_technique s = Some n ->
  technique_shape (String.substring 0 n s) = true /\
  (n <= String.length s)%nat /\ (5 <= n)%nat.
Proof.
  unfold match_technique.
  destruct s as [|t [|d1 [|d2 [|d3 [|d4 rest]]]]]; try discriminate.
  destruct (Ascii.eqb t "T" && is_digit d1 && is_digit d2 && is_digit d3
            && is_digit d4) eqn:E; [|discriminate].
  destruct rest as [|p [|e1 [|e2 [|e3 rest]]]];
    try (intros [= <-]; cbn [String.substring technique_shape String.length];
         rewrite E; split; [done|lia]).
  destruct (Ascii.eqb p "." && is_digit e1 && is_digit e2 && is_digit e3)
    eqn:E'; intros [= <-];
    cbn [String.substring technique_shape String.length];
    rewrite E, ?E'; (split; [|lia]); [by destruct rest|done].
Qed.


Lemma findall_from_count s skip :
  (5 * length (findall_from skip s) <= String.length s - skip)%nat.
Proof.
  revert skip. induction s as [|c s IH]; intros skip; [simpl; lia|].
  cbn [findall_from String.length]. destruct skip as [|k].
  - destruct (match_technique (String c s)) as [n|] eqn:E.
    + apply match_technique_shape in E as (_ & Hn & H5).
      cbn [String.length] in Hn. specialize (IH (n - 1)%nat).
      cbn [length]. lia.
    + specialize (IH 0%nat). lia.
  - specialize (IH k). lia.
Qed.


(** X2: matches do not overlap: a text of [n] characters yields at most [n/5]
    techniques. *)
Theorem extracted_techniques_count (s : string) :
  (5 * length (V1.extract_techniques (Some s)) <= String.length s)%nat.
Proof.
  unfold V1.extract_techniques.
  destruct (String.eqb s ""); [simpl; lia|].
  pose proof (findall_from_count s 0). unfold re_findall_technique. lia.
Qed.

(** ** The tactic resolver *)

Lemma digit_not_dot c : is_digit c = true -> Ascii.eqb c "." = false.
Proof. destruct c as [[] [] [] [] [] [] [] []]; by vm_compute. Qed.

Lemma split_dot_head_shape t :
  technique_shape t = true ->
  split_dot_head t = String.substring 0 5 t /\
  split_dot_head (String.substring 0 5 t) = String.substring 0 5 t.
Proof.
  destruct t as [|t0 [|d1 [|d2 [|d3 [|d4 rest]]]]]; try discriminate.
  cbn [technique_shape]. rewrite !andb_true_iff.
  intros [[[[[Ht H1] H2] H3] H4] Hrest].
  apply Ascii.eqb_eq in Ht as ->.
  apply digit_not_dot in H1, H2, H3, H4.
  cbn [split_dot_head String.substring].
  change (Ascii.eqb "T" ".") with false. rewrite H1, H2, H3, H4.
  assert (Hr : split_dot_head rest = "").
  { destruct rest as [|p rest]; [done|]. cbn [split_dot_head].
    destruct rest as [|e1 [|e2 [|e3 [|]]]]; try discriminate.
    apply andb_true_iff in Hrest as [Hp _].
    apply andb_true_iff in Hp as [Hp _].
    apply andb_true_iff in Hp as [Hp _]. by rewrite Hp. }
  rewrite Hr. by destruct rest.
Qed.

(** X4: a sub-technique resolves like its base technique: the suffix after
    the dot is ignored by both resolvers. *)
Theorem subtechnique_resolves_as_base (t : string) :
  technique_shape t = true ->
  V1.get_tactic_for_technique t =
    V1.get_tactic_for_technique (String.substring 0 5 t) /\
  V2.get_tactic_sequence [t] =
    V2.get_tactic_sequence [String.substring 0 5 t].
Proof.
  intros H. destruct (split_dot_head_shape t H) as [E1 E2].
  unfold V1.get_tactic_for_technique. cbn [V2.get_tactic_sequence].
  by rewrite E1, E2.
Qed.

Lemma subtechnique_resolves_as_base_witness :
  V1.get_tactic_for_technique "T1059.001" =
    V1.get_tactic_for_technique "T1059" /\
  V2.get_tactic_sequence ["T1059.001"] = V2.get_tactic_sequence ["T1059"].
Proof. apply (subtechnique_resolves_as_base "T1059.001"). reflexivity. Defined.

Lemma get_weaken {V : Type} (m1 m2 : gmap string V) k dflt :
  m1 ⊆ m2 -> get m1 k dflt ≠ dflt -> get m2 k dflt = get m1 k dflt.
Proof.
  intros Hsub. unfold get.
  destruct (m1 !! k) as [v|] eqn:E; cbn [default]; [|congruence].
  intros _. by rewrite (lookup_weaken _ _ _ _ E Hsub).
Qed.

Lemma technique_tables_included :
  V1.TECHNIQUE_TACTIC_MAP ⊆ V2.TECHNIQUE_TO_TACTIC.
Proof.
  apply map_subseteq_spec.
  apply (bool_decide_unpack
           (map_Forall (fun k v => V2.TECHNIQUE_TO_TACTIC !! k = Some v)
                       V1.TECHNIQUE_TACTIC_MAP)).
  vm_compute. exact I.
Qed.

(** X5: every technique that the first script resolves is resolved to the
    same tactic by the second: its table extends the first one. *)
Theorem technique_table_v2_extends_v1 (technique : string) :
  V1.get_tactic_for_technique technique ≠ "unknown" ->
  V2.get_tactic_sequence [technique] =
    [V1.get_tactic_for_technique technique].
Proof.
  unfold V1.get_tactic_for_technique. cbv zeta. intros H.
  cbn [V2.get_tactic_sequence]. cbv zeta.
  rewrite (get_weaken _ _ _ _ technique_tables_included H).
  by rewrite (bool_decide_eq_true_2 _ H).
Qed.

Lemma technique_table_v2_extends_v1_witness :
  V2.get_tactic_sequence ["T1078.003"] =
    [V1.get_tactic_for_technique "T1078.003"].
Proof.
  apply (technique_table_v2_extends_v1 "T1078.003").
  vm_compute. discriminate.
Defined.

Lemma traverse_subscript_Forall {V : Type} (P : V -> Prop)
    (d : gmap string V) keys :
  Forall (fun k => exists v, d !! k = Some v /\ P v) keys ->
  exists vs, traverse (subscript d) keys = Ok vs /\
             Forall P vs /\ length vs = length keys.
Proof.
  induction 1 as [|k l (v & Hv & HP) _ (vs & IH & HPs & Hlen)].
  - exists []. by repeat split.
  - exists (v :: vs).
    assert (Hk : subscript d k = Ok v) by (unfold subscript; by rewrite Hv).
    cbn [traverse]. rewrite Hk, IH. repeat split; [by constructor|].
    simpl. by rewrite Hlen.
Qed.

Lemma technique_table_v1_positions technique :
  let tactic := V1.get_tactic_for_technique technique in
  tactic = "unknown" \/ 0 <= get V1.TACTIC_ORDER tactic (-1) <= 13.
Proof.
  cbv zeta. unfold V1.get_tactic_for_technique, V1.TECHNIQUE_TACTIC_MAP.
  cbv zeta.
  apply (get_dict_Forall
           (fun v => v = "unknown" \/ 0 <= get V1.TACTIC_ORDER v (-1) <= 13)
           V1.TECHNIQUE_TACTIC_MAP_items); [by left|].
  unfold V1.TECHNIQUE_TACTIC_MAP_items.
  repeat (apply Forall_app; split);
    apply (block_values
             (fun v => v = "unknown"
                       \/ 0 <= get V1.TACTIC_ORDER v (-1) <= 13));
    right; vm_compute; split; discriminate.
Qed.

Lemma technique_table_v2_positions technique :
  let tactic := get V2.TECHNIQUE_TO_TACTIC technique "unknown" in
  tactic = "unknown" \/
  exists v, V2.TACTIC_ORDER !! tactic = Some v /\ 1 <= v <= 14.
Proof.
  cbv zeta. unfold V2.TECHNIQUE_TO_TACTIC.
  apply (get_dict_Forall
           (fun t => t = "unknown" \/
                     exists v, V2.TACTIC_ORDER !! t = Some v /\ 1 <= v <= 14)
           V2.TECHNIQUE_TO_TACTIC_items); [by left|].
  unfold V2.TECHNIQUE_TO_TACTIC_items.
  repeat (apply Forall_app; split);
    apply (block_values
             (fun t => t = "unknown" \/
                       exists v, V2.TACTIC_ORDER !! t = Some v
                                 /\ 1 <= v <= 14));
    right; eexists; (split; [vm_compute; reflexivity|lia]).
Qed.

Lemma tactic_sequence_positions techniques :
  Forall (fun t => exists v, V2.TACTIC_ORDER !! t = Some v /\ 1 <= v <= 14)
         (V2.get_tactic_sequence techniques).
Proof.
  induction techniques as [|t l IH]; [constructor|].
  cbn [V2.get_tactic_sequence]. cbv zeta.
  case_bool_decide as Hu; [|exact IH].
  constructor; [|exact IH].
  destruct (technique_table_v2_positions (split_dot_head t)) as [E|E];
    [contradiction|exact E].
Qed.

(** X6: the resolved order positions are always kill-chain positions: from 0
    to 13 in the first script, whose default -1 is never used, and from 1
    to 14 in the second, whose table lookup never fails; one position
    per resolved tactic. *)
Theorem resolved_positions_in_range (techniques : list string) :
  Forall (fun v => 0 <= v <= 13) (V1.tactic_order_values techniques) /\
  exists nums,
    V2.tactic_nums (V2.get_tactic_sequence techniques) = Ok nums /\
    Forall (fun v => 1 <= v <= 14) nums /\
    length nums = length (V2.get_tactic_sequence techniques).
Proof.
  split.
  - unfold V1.tactic_order_values. cbv zeta.
    induction techniques as [|t l IH]; [constructor|].
    cbn [map]. rewrite filter_cons.
    destruct (decide (V1.get_tactic_for_technique t ≠ "unknown")) as [H|H];
      [|exact IH].
    cbn [map]. constructor; [|exact IH].
    destruct (technique_table_v1_positions t) as [E|E];
      [contradiction|exact E].
  - apply (traverse_subscript_Forall (fun v => 1 <= v <= 14)).
    apply tactic_sequence_positions.
Qed.

(** ** Violation counting *)

Lemma count_violations_v1_step x y l acc :
  V1.count_violations acc (x :: y :: l) =
  V1.count_violations
    (if x >? y then (if x - y >? 3 then acc + 2 else acc + 1) else acc)
    (y :: l).
Proof.
  cbn [V1.count_violations]. cbv zeta.
  by destruct (x >? y); [destruct (x - y >? 3)|].
Qed.

Lemma count_violations_v1_bound values acc :
  acc <= V1.count_violations acc values
      <= acc + 2 * Z.of_nat (length values - 1).
Proof.
  revert acc. induction values as [|x [|y l] IH]; intros acc;
    [simpl; lia|simpl; lia|].
  rewrite count_violations_v1_step.
  assert (Hl : Z.of_nat (length (x :: y :: l) - 1)
               = 1 + Z.of_nat (length (y :: l) - 1)) by (simpl; lia).
  rewrite Hl.
  match goal with |- context [V1.count_violations ?a _] =>
    specialize (IH a) end.
  destruct (x >? y); [destruct (x - y >? 3)|]; lia.
Qed.

Lemma count_violations_v1_zero_sorted values acc :
  V1.count_violations acc values = acc -> Sorted Z.le values.
Proof.
  revert acc. induction values as [|x [|y l] IH]; intros acc;
    [constructor|repeat constructor|].
  rewrite count_violations_v1_step. intros H.
  match type of H with V1.count_violations ?a ?l = _ =>
    pose proof (count_violations_v1_bound l a) as Hb end.
  destruct (x >? y) eqn:Hxy.
  - exfalso. destruct (x - y >? 3); lia.
  - constructor; [by apply (IH acc)|].
    constructor. rewrite Z.gtb_ltb in Hxy. by apply Z.ltb_ge.
Qed.

Lemma violation_score_v1_ten v n : V1.violation_score v n = 10 -> v = 0.
Proof.
  unfold V1.violation_score. destruct (Z.eqb_spec v 0); [done|].
  repeat case_match; discriminate.
Qed.

(** X7: in the first script, with at least one resolved technique, the score
    is 10 exactly when the resolved positions never decrease. *)
Theorem coherence_v1_ten_iff_sorted (s : option string) :
  resolved_positions_v1 s ≠ [] ->
  V1.evaluate_logical_coherence s = 10 <->
  Sorted Z.le (resolved_positions_v1 s).
Proof.
  unfold resolved_positions_v1. intros Hne.
  rewrite coherence_v1_values by (by intros E; rewrite E in Hne).
  destruct (V1.tactic_order_values _) as [|x l]; [done|]. cbv zeta. split.
  - intros H.
    pose proof (violation_score_v1_range
                  (V1.count_violations 0 (x :: l))
                  (Z.of_nat (length (x :: l)))) as Hr.
    apply (count_violations_v1_zero_sorted _ 0).
    apply (violation_score_v1_ten _ (Z.of_nat (length (x :: l)))). lia.
  - intros H. by rewrite count_violations_v1_sorted.
Qed.

Lemma coherence_v1_ten_iff_sorted_witness :
  V1.evaluate_logical_coherence (Some "T1566 T1059") = 10 <->
  Sorted Z.le (resolved_positions_v1 (Some "T1566 T1059")).
Proof.
  apply (coherence_v1_ten_iff_sorted (Some "T1566 T1059")).
  vm_compute. discriminate.
Defined.

Lemma count_violations_v2_step x y l v m :
  V2.count_violations v m (x :: y :: l) =
  V2.count_violations
    (if (x >? y) && (x - y >? 2) then v + 1 else v)
    (if (x >? y) && (x - y >? 5) then m + 1 else m)
    (y :: l).
Proof.
  cbn [V2.count_violations]. cbv zeta.
  by destruct (x >? y), (x - y >? 2), (x - y >? 5).
Qed.

Lemma count_violations_v2_major nums v m v' m' :
  V2.count_violations v m nums = (v', m') ->
  m <= m' /\ m' - m <= v' - v /\ v' - v <= Z.of_nat (length nums - 1).
Proof.
  revert v m. induction nums as [|x [|y l] IH]; intros v m.
  - intros [= <- <-]. simpl. lia.
  - intros [= <- <-]. simpl. lia.
  - rewrite count_violations_v2_step. intros H. apply IH in H.
    assert (Hl : Z.of_nat (length (x :: y :: l) - 1)
                 = 1 + Z.of_nat (length (y :: l) - 1)) by (simpl; lia).
    rewrite Hl.
    destruct (x >? y); cbn [andb] in H; [|lia].
    destruct (Z.ltb_spec 2 (x - y)), (Z.ltb_spec 5 (x - y));
      rewrite ?Z.gtb_ltb in H;
      repeat match type of H with
             | context [?a <? ?b] =>
                 destruct (Z.ltb_spec a b); try lia
             end; lia.
Qed.

(** X8: the two counters of the second script's loop: major violations are
    among the violations, and there is at most one violation per
    transition; the first script's weighted count is at most twice the
    number of transitions. *)
Theorem violation_counters_bounded (nums : list Z) :
  let transitions := Z.of_nat (length nums - 1) in
  0 <= (V2.count_violations 0 0 nums).2
    <= (V2.count_violations 0 0 nums).1 /\
  (V2.count_violations 0 0 nums).1 <= transitions /\
  0 <= V1.count_violations 0 nums <= 2 * transitions.
Proof.
  cbv zeta. pose proof (count_violations_v1_bound nums 0).
  destruct (V2.count_violations 0 0 nums) as [v m] eqn:E.
  apply count_violations_v2_major in E. simpl. lia.
Qed.

(** ** The second coherence scorer past its guards *)

Lemma coherence_v2_general (s : option string) nums violations major :
  let techniques := V2.extract_techniques s in
  let tactics := V2.get_tactic_sequence techniques in
  (3 <= length techniques)%nat ->
  V2.tactic_nums tactics = Ok nums ->
  (2 <= length nums)%nat ->
  V2.count_violations 0 0 nums = (violations, major) ->
  V2.score_logical_coherence s =
    Ok (structure_adjust tactics techniques
          (V2.violation_score major
             (round53 (inject_Z violations
                       / inject_Z (Z.of_nat (length nums) - 1))))).
Proof.
  cbv zeta. intros Hlen Hnums Hn Hcount.
  unfold V2.score_logical_coherence. cbv zeta.
  replace (Z.of_nat (length (V2.extract_techniques s)) <? 3) with false
    by (symmetry; apply Z.ltb_ge; lia).
  rewrite (bool_decide_eq_false_2 (V2.extract_techniques s = []))
    by (intros E; rewrite E in Hlen; simpl in Hlen; lia).
  pose proof (traverse_length _ _ _ Hnums) as Hl.
  rewrite (bool_decide_eq_false_2 (V2.get_tactic_sequence _ = []))
    by (intros E; rewrite E in Hl; simpl in Hl; lia).
  cbv [orb]. rewrite Hnums. cbv [mbind result_bind]. rewrite Hcount.
  unfold truediv.
  replace (Z.of_nat (length nums) - 1 =? 0) with false
    by (symmetry; apply Z.eqb_neq; lia).
  reflexivity.
Qed.

Lemma structure_adjust_le tactics techniques band :
  1 <= band -> structure_adjust tactics techniques band <= band + 1.
Proof. intros H. unfold structure_adjust. repeat case_match; lia. Qed.

Lemma violation_score_v2_major major ratio :
  1 <= major ->
  2 <= V2.violation_score major ratio <= 4 /\
  (2 <= major -> V2.violation_score major ratio <= 3) /\
  (3 <= major -> V2.violation_score major ratio <= 2).
Proof.
  intros H. unfold V2.violation_score. rewrite Z.geb_leb.
  destruct (Z.leb_spec 3 major); [lia|].
  destruct (Z.eqb_spec major 2); [lia|].
  destruct (Z.eqb_spec major 1); lia.
Qed.

(** X9: in the second script a single backward jump of more than five
    positions caps the score at 5, two cap it at 4, three or more at 3,
    whatever the rest of the sequence looks like. *)
Theorem major_violations_cap_v2 (s : option string) nums violations major :
  let techniques := V2.extract_techniques s in
  let tactics := V2.get_tactic_sequence techniques in
  (3 <= length techniques)%nat ->
  V2.tactic_nums tactics = Ok nums ->
  V2.count_violations 0 0 nums = (violations, major) ->
  1 <= major ->
  exists n, V2.score_logical_coherence s = Ok n /\ n <= 5 /\
            (2 <= major -> n <= 4) /\ (3 <= major -> n <= 3).
Proof.
  cbv zeta. intros Hlen Hnums Hcount Hm.
  pose proof (count_violations_v2_major _ _ _ _ _ Hcount) as Hb.
  rewrite (coherence_v2_general s nums violations major) by (done || lia).
  eexists. split; [reflexivity|].
  match goal with |- context [V2.violation_score major ?r] =>
    pose proof (violation_score_v2_major major r Hm) as (Hv & Hv2 & Hv3);
    pose proof (structure_adjust_le
                  (V2.get_tactic_sequence (V2.extract_techniques s))
                  (V2.extract_techniques s)
                  (V2.violation_score major r))
  end.
  lia.
Qed.

Lemma major_violations_cap_v2_witness :
  exists n,
    V2.score_logical_coherence (Some "T1566 T1059 T1041 T1566 T1071") = Ok n
    /\ n <= 5 /\ (2 <= 1 -> n <= 4) /\ (3 <= 1 -> n <= 3).
Proof.
  apply (major_violations_cap_v2 (Some "T1566 T1059 T1041 T1566 T1071")
           [3; 4; 13; 3; 12] 1 1).
  - vm_compute. lia.
  - vm_compute. reflexivity.
  - vm_compute. reflexivity.
  - lia.
Defined.

(** X10: the paths of the coherence scorers for sequences that cannot be
    ordered: when techniques are extracted and none resolves, the first
    script returns 5; the second script, given at least three techniques,
    returns 4 when none resolves and 7 when exactly one does. *)
Theorem coherence_unresolved_paths (s : option string) :
  (V1.extract_techniques s ≠ [] -> resolved_positions_v1 s = [] ->
   V1.evaluate_logical_coherence s = 5) /\
  ((3 <= length (V2.extract_techniques s))%nat ->
   (V2.get_tactic_sequence (V2.extract_techniques s) = [] ->
    V2.score_logical_coherence s = Ok 4) /\
   (length (V2.get_tactic_sequence (V2.extract_techniques s)) = 1%nat ->
    V2.score_logical_coherence s = Ok 7)).
Proof.
  split.
  - unfold resolved_positions_v1. intros Hne Hv.
    rewrite coherence_v1_values by done. by rewrite Hv.
  - intros Hlen.
    unfold V2.score_logical_coherence. cbv zeta.
    replace (Z.of_nat (length (V2.extract_techniques s)) <? 3) with false
      by (symmetry; apply Z.ltb_ge; lia).
    rewrite (bool_decide_eq_false_2 (V2.extract_techniques s = []))
      by (intros E; rewrite E in Hlen; simpl in Hlen; lia).
    cbv [orb]. split.
    + intros ->. by rewrite bool_decide_eq_true_2.
    + intros H1.
      rewrite (bool_decide_eq_false_2 (V2.get_tactic_sequence _ = []))
        by (intros E; rewrite E in H1; discriminate H1).
      destruct (resolved_positions_in_range (V2.extract_techniques s))
        as (_ & nums & Hnums & _ & Hl).
      rewrite Hnums. cbv [mbind result_bind].
      destruct (V2.count_violations 0 0 nums) as [v m].
      replace (Z.of_nat (length nums) - 1 =? 0) with true
        by (symmetry; apply Z.eqb_eq; lia).
      reflexivity.
Qed.

Lemma coherence_unresolved_paths_witness :
  V1.evaluate_logical_coherence (Some "T9999") = 5 /\
  V2.score_logical_coherence (Some "T9999 T9998 T9997") = Ok 4 /\
  V2.score_logical_coherence (Some "T9999 T1059 T9997") = Ok 7.
Proof.
  split; [|split].
  - apply (coherence_unresolved_paths (Some "T9999"));
      [vm_compute; discriminate|vm_compute; reflexivity].
  - apply (coherence_unresolved_paths (Some "T9999 T9998 T9997"));
      [vm_compute; lia|vm_compute; reflexivity].
  - apply (coherence_unresolved_paths (Some "T9999 T1059 T9997"));
      [vm_compute; lia|vm_compute; reflexivity].
Defined.

(** ** More on the realism scorers *)

Lemma realism_v1_lower (s : option string) (apt : string) :
  V1.extract_techniques s ≠ [] ->
  2 <= V1.evaluate_operational_realism s apt.
Proof.
  unfold V1.evaluate_operational_realism.
  destruct (V1.extract_techniques s) as [|t l]; [done|]. intros _.
  cbv zeta.
  generalize (V1.essential_present (V1.technique_tactics (t :: l))).
  generalize (Z.of_nat (length (t :: l))). intros n p.
  set (x := if p >=? 2 then _ else _).
  assert (Hx : 3 <= x) by (subst x; split_conditions).
  clearbody x. repeat case_match; lia.
Qed.

Lemma realism_v2_lower (s : option string) (apt : string) :
  V2.extract_techniques s ≠ [] ->
  3 <= V2.score_operational_realism s apt.
Proof.
  unfold V2.score_operational_realism.
  destruct (V2.extract_techniques s) as [|t l]; [done|]. intros _.
  cbv zeta.
  generalize (V2.essential_count (V2.get_tactic_sequence (t :: l))).
  generalize (Z.of_nat (length (t :: l))). intros n p.
  set (x := if p >=? 3 then _ else _).
  assert (Hx : 4 <= x) by (subst x; split_conditions).
  clearbody x. repeat case_match; lia.
Qed.

(** X12: the first script never awards more than 9, and the second never less
    than 3 once a technique is extracted. *)
Theorem realism_score_bounds (s : option string) (apt : string) :
  V1.evaluate_operational_realism s apt <= 9 /\
  (V2.extract_techniques s ≠ [] ->
   3 <= V2.score_operational_realism s apt).
Proof.
  split; [|apply realism_v2_lower].
  unfold V1.evaluate_operational_realism.
  destruct (V1.extract_techniques s) as [|t l]; [lia|]. cbv zeta.
  generalize (V1.essential_present (V1.technique_tactics (t :: l))).
  generalize (Z.of_nat (length (t :: l))). intros n p.
  set (x := if p >=? 2 then _ else _).
  assert (Hx : x <= 9) by (subst x; split_conditions).
  clearbody x. repeat case_match; lia.
Qed.

Lemma realism_score_bounds_witness :
  V1.evaluate_operational_realism (Some "T1486") "APT29" <= 9 /\
  3 <= V2.score_operational_realism (Some "T1486") "APT29".
Proof.
  destruct (realism_score_bounds (Some "T1486") "APT29") as [H1 H2].
  split; [exact H1|]. apply H2. vm_compute. discriminate.
Defined.

(** X13: in the first script the APT name matters only through the list of
    destructive groups: two names on the same side of the list score
    alike, and a listed group never scores lower than any other name. *)
Theorem realism_v1_apt_dependence (s : option string) (apt apt' : string) :
  let destructive := ["Sandworm_Team"; "Wizard_Spider"; "Lazarus_Group"] in
  (in_list apt destructive = in_list apt' destructive ->
   V1.evaluate_operational_realism s apt =
   V1.evaluate_operational_realism s apt') /\
  (in_list apt destructive = true ->
   V1.evaluate_operational_realism s apt'
   <= V1.evaluate_operational_realism s apt).
Proof.
  cbv zeta. unfold V1.evaluate_operational_realism.
  destruct (V1.extract_techniques s) as [|t l]; [by split|]. cbv zeta.
  split.
  - by intros ->.
  - intros ->.
    generalize (V1.essential_present (V1.technique_tactics (t :: l))).
    intros p. set (x := if p >=? 2 then _ else _). clearbody x.
    cbv [negb]. repeat case_match; lia.
Qed.

Lemma realism_v1_apt_dependence_witness :
  V1.evaluate_operational_realism (Some "T1486") "APT29" =
  V1.evaluate_operational_realism (Some "T1486") "FIN7" /\
  V1.evaluate_operational_realism (Some "T1486") "APT29"
  <= V1.evaluate_operational_realism (Some "T1486") "Wizard_Spider".
Proof.
  split.
  - apply (realism_v1_apt_dependence (Some "T1486") "APT29" "FIN7").
    vm_compute. reflexivity.
  - apply (realism_v1_apt_dependence (Some "T1486") "Wizard_Spider" "APT29").
    vm_compute. reflexivity.
Defined.

Lemma get_None {V : Type} (d : gmap string V) k dflt :
  d !! k = None -> get d k dflt = dflt.
Proof. intros H. unfold get. by rewrite H. Qed.

Lemma apt29_objectives :
  get V1.APT_OBJECTIVES "APT29" ["espionage"] = ["espionage"] /\
  get V2.APT_OBJECTIVES "APT29" ["espionage"] = ["espionage"].
Proof. by vm_compute. Qed.

(** X14: a group name absent from the objectives table is treated as an
    espionage-only group such as APT29: by the second script's realism
    scorer and by both objective classifiers. *)
Theorem unknown_apt_as_espionage (s seed : option string) (apt : string) :
  (V2.APT_OBJECTIVES !! apt = None ->
   V2.score_operational_realism s apt =
     V2.score_operational_realism s "APT29" /\
   V2.determine_same_objective seed s apt =
     V2.determine_same_objective seed s "APT29") /\
  (V1.APT_OBJECTIVES !! apt = None ->
   V1.evaluate_same_objective seed s apt =
     V1.evaluate_same_objective seed s "APT29").
Proof.
  destruct apt29_objectives as [E1 E2]. split.
  - intros H.
    unfold V2.score_operational_realism, V2.determine_same_objective.
    cbv zeta. by rewrite !(get_None _ _ _ H), !E2.
  - intros H. unfold V1.evaluate_same_objective. cbv zeta.
    by rewrite !(get_None _ _ _ H), !E1.
Qed.

Lemma unknown_apt_as_espionage_witness :
  V2.score_operational_realism (Some "T1486 T1041") "Carbanak" =
    V2.score_operational_realism (Some "T1486 T1041") "APT29" /\
  V1.evaluate_same_objective (Some "T1041") (Some "T1486 T1041") "Carbanak" =
    V1.evaluate_same_objective (Some "T1041") (Some "T1486 T1041") "APT29".
Proof.
  destruct (unknown_apt_as_espionage (Some "T1486 T1041") (Some "T1041")
              "Carbanak") as [H2 H1].
  split.
  - apply H2. vm_compute. reflexivity.
  - apply H1. vm_compute. reflexivity.
Defined.

(** ** More on the objective classifiers *)

Lemma existsb_andb_comm {A : Type} (p q : A -> bool) l :
  existsb (fun x => p x && q x) l = existsb (fun x => q x && p x) l.
Proof.
  induction l as [|x l IH]; [done|]. simpl. by rewrite IH, andb_comm.
Qed.

(** X15: when both sequences are present, swapping seed and candidate does
    not change the answer of either classifier. *)
Theorem same_objective_symmetric (a b : option string) (apt : string) :
  V1.missing a = false -> V1.missing b = false ->
  V1.evaluate_same_objective a b apt = V1.evaluate_same_objective b a apt /\
  V2.determine_same_objective a b apt = V2.determine_same_objective b a apt.
Proof.
  intros Ha Hb. split.
  - unfold V1.evaluate_same_objective. rewrite Ha, Hb. cbv zeta.
    set (A := list_to_set (V1.infer_objective_from_sequence a) : gset string).
    set (B := list_to_set (V1.infer_objective_from_sequence b) : gset string).
    rewrite (intersection_comm_L B A).
    rewrite (andb_comm (truthy (B ∩ _))).
    by rewrite (existsb_andb_comm (fun g => truthy (B ∩ g))).
  - unfold V2.determine_same_objective.
    change V2.missing with V1.missing. rewrite Ha, Hb. cbv zeta.
    match goal with
      |- (if truthy (?A ∩ ?B) then _ else _) = _ =>
        set (X := A); set (Y := B)
    end.
    rewrite (intersection_comm_L Y X).
    by rewrite (existsb_andb_comm (fun g => truthy (Y ∩ g))).
Qed.

Lemma same_objective_symmetric_witness :
  V1.evaluate_same_objective (Some "T1486") (Some "T1041") "APT29" =
    V1.evaluate_same_objective (Some "T1041") (Some "T1486") "APT29" /\
  V2.determine_same_objective (Some "T1486") (Some "T1041") "APT29" =
    V2.determine_same_objective (Some "T1041") (Some "T1486") "APT29".
Proof.
  apply (same_objective_symmetric (Some "T1486") (Some "T1041") "APT29");
    reflexivity.
Defined.

Lemma truthy_common (x : string) (A B : gset string) :
  x ∈ A -> x ∈ B -> truthy (A ∩ B) = true.
Proof.
  intros HA HB. apply truthy_true. intros E.
  assert (H : x ∈ A ∩ B) by (by apply elem_of_intersection).
  rewrite E in H. by apply not_elem_of_empty in H.
Qed.

Lemma infer_objective_espionage s :
  in_set "exfiltration" (V1.technique_tactics (V1.extract_techniques s))
  || in_set "collection" (V1.technique_tactics (V1.extract_techniques s))
  = true ->
  "espionage" ∈ V1.infer_objective_from_sequence s.
Proof.
  intros H. unfold V1.infer_objective_from_sequence. cbv zeta.
  rewrite H. unfold V1.append. cbn [app].
  assert (Hm : forall o : list string,
             "espionage" ∈ o ->
             "espionage" ∈ match o with
                           | [] => app o ["espionage"]
                           | _ => o
                           end).
  { intros [|x o] Ho; [by apply elem_of_nil in Ho|done]. }
  apply Hm.
  repeat match goal with
         | |- context [if ?c then _ else _] => destruct c
         end; cbn [app]; apply list_elem_of_here.
Qed.

Lemma infer_objectives_espionage (T : gset string) :
  in_set "exfiltration" T || in_set "collection" T = true ->
  "espionage" ∈ V2.infer_objectives T.
Proof.
  intros H. unfold V2.infer_objectives. cbv zeta. rewrite H.
  repeat case_match; set_solver.
Qed.

(** X16: two present sequences that both contain a collection or exfiltration
    technique share an objective, for every APT name. *)
Theorem shared_espionage_indicator_Yes (seed cand : option string)
    (apt : string) :
  V1.missing cand = false ->
  (let T1 := V1.technique_tactics (V1.extract_techniques seed) in
   let T2 := V1.technique_tactics (V1.extract_techniques cand) in
   in_set "exfiltration" T1 || in_set "collection" T1 = true ->
   in_set "exfiltration" T2 || in_set "collection" T2 = true ->
   V1.evaluate_same_objective seed cand apt = "Yes") /\
  (in_set "exfiltration" (resolved_tactics_v2 seed)
   || in_set "collection" (resolved_tactics_v2 seed) = true ->
   in_set "exfiltration" (resolved_tactics_v2 cand)
   || in_set "collection" (resolved_tactics_v2 cand) = true ->
   V2.determine_same_objective seed cand apt = "Yes").
Proof.
  intros Hc. split.
  - cbv zeta. intros H1 H2. unfold V1.evaluate_same_objective.
    rewrite Hc. cbv zeta.
    rewrite (truthy_common "espionage"); [done| |];
      apply elem_of_list_to_set; by apply infer_objective_espionage.
  - unfold resolved_tactics_v2. intros H1 H2.
    apply infer_objectives_espionage in H1, H2.
    unfold V2.determine_same_objective.
    change V2.missing with V1.missing. rewrite Hc. cbv zeta.
    assert (Ht : forall X : gset string, "espionage" ∈ X -> truthy X = true).
    { intros X HX. apply truthy_true. intros E. rewrite E in HX.
      by apply not_elem_of_empty in HX. }
    rewrite (Ht _ H1), (Ht _ H2). cbv [negb].
    by rewrite (truthy_common "espionage").
Qed.

Lemma shared_espionage_indicator_Yes_witness :
  V1.evaluate_same_objective (Some "T1560") (Some "T1041") "FIN7" = "Yes" /\
  V2.determine_same_objective (Some "T1560") (Some "T1041") "FIN7" = "Yes".
Proof.
  destruct (shared_espionage_indicator_Yes (Some "T1560") (Some "T1041")
              "FIN7" eq_refl) as [H1 H2].
  cbv zeta in H1. split; [apply H1|apply H2]; vm_compute; reflexivity.
Defined.

Lemma truthy_false (X : gset string) : truthy X = false <-> X = ∅.
Proof.
  unfold truthy. rewrite bool_decide_eq_false. split; [|by intros -> ?].
  intros H. by destruct (decide (X = ∅)).
Qed.

(** X17: two present sequences without any collection, exfiltration, impact
    or credential-access technique always share an objective: in the
    first script both default to espionage, in the second both fall back
    to the objectives of the APT. *)
Theorem no_indicator_Yes (seed cand : option string) (apt : string) :
  V1.missing cand = false ->
  (let quiet (s : option string) :=
     let T := V1.technique_tactics (V1.extract_techniques s) in
     in_set "exfiltration" T = false /\ in_set "collection" T = false /\
     in_set "impact" T = false /\ in_set "credential-access" T = false in
   quiet seed -> quiet cand ->
   V1.evaluate_same_objective seed cand apt = "Yes") /\
  (let quiet (s : option string) :=
     let T := resolved_tactics_v2 s in
     in_set "exfiltration" T = false /\ in_set "collection" T = false /\
     in_set "impact" T = false /\ in_set "credential-access" T = false in
   quiet seed -> quiet cand ->
   V2.determine_same_objective seed cand apt = "Yes").
Proof.
  intros Hc. split; cbv zeta.
  - intros (A1 & A2 & A3 & A4) (B1 & B2 & B3 & B4).
    unfold V1.evaluate_same_objective. rewrite Hc. cbv zeta.
    unfold V1.infer_objective_from_sequence. cbv zeta.
    by rewrite A1, A2, A3, A4, B1, B2, B3, B4.
  - unfold resolved_tactics_v2.
    intros (A1 & A2 & A3 & A4) (B1 & B2 & B3 & B4).
    unfold V2.determine_same_objective.
    change V2.missing with V1.missing. rewrite Hc. cbv zeta.
    unfold V2.infer_objectives. cbv zeta.
    rewrite A1, A2, A3, A4, B1, B2, B3, B4. cbn [orb andb].
    change (truthy ∅) with false. cbv [negb].
    rewrite truthy_self, truthy_list_to_set; [done|].
    apply apt_objectives_v2_nonempty.
Qed.

Lemma no_indicator_Yes_witness :
  V1.evaluate_same_objective (Some "no technique") (Some "T1059 T1566")
    "Wizard_Spider" = "Yes" /\
  V2.determine_same_objective (Some "no technique") (Some "T1059 T1566")
    "Wizard_Spider" = "Yes".
Proof.
  destruct (no_indicator_Yes (Some "no technique") (Some "T1059 T1566")
              "Wizard_Spider" eq_refl) as [H1 H2].
  split; [apply H1|apply H2]; vm_compute; repeat split.
Defined.

(** X18: in the second script the APT name matters to the classifier only as
    a fallback: when both sequences yield an objective of their own, the
    answer is the same for every APT name. *)
Theorem determine_apt_only_fallback (seed cand : option string)
    (apt apt' : string) :
  truthy (V2.infer_objectives (resolved_tactics_v2 seed)) = true ->
  truthy (V2.infer_objectives (resolved_tactics_v2 cand)) = true ->
  V2.determine_same_objective seed cand apt =
  V2.determine_same_objective seed cand apt'.
Proof.
  unfold resolved_tactics_v2, V2.determine_same_objective. cbv zeta.
  by intros -> ->.
Qed.

Lemma determine_apt_only_fallback_witness :
  V2.determine_same_objective (Some "T1041") (Some "T1486") "APT29" =
  V2.determine_same_objective (Some "T1041") (Some "T1486") "Sandworm_Team".
Proof.
  apply (determine_apt_only_fallback (Some "T1041") (Some "T1486"));
    by vm_compute.
Defined.

(** ** The record evaluators *)










(** ** Joining sequence texts *)

Lemma separator_facts c :
  separator c = true ->
  Ascii.eqb c "T" = false /\ Ascii.eqb c "." = false /\ is_digit c = false.
Proof.
  unfold separator. rewrite !andb_true_iff, !negb_true_iff. tauto.
Qed.

Lemma match_technique_separator s1 c s2 :
  separator c = true ->
  match_technique (String.append s1 (String c s2)) = match_technique s1.
Proof.
  intros Hc. apply separator_facts in Hc as (HT & Hdot & Hdig).
  destruct s1 as [|a1 [|a2 [|a3 [|a4 [|a5 [|a6 [|a7 [|a8 [|a9 s1]]]]]]]]];
    destruct s2 as [|b1 [|b2 [|b3 s2]]];
    cbv beta iota delta [String.append]; unfold match_technique;
    rewrite ?HT, ?Hdot, ?Hdig, ?andb_false_r; cbn [andb];
    rewrite ?andb_false_r;
    repeat case_match; try reflexivity; try discriminate.
Qed.

Lemma substring_append n s1 s2 :
  (n <= String.length s1)%nat ->
  String.substring 0 n (String.append s1 s2) = String.substring 0 n s1.
Proof.
  revert s1. induction n as [|n IH]; intros s1 Hn.
  - by destruct s1, s2.
  - destruct s1 as [|a s1]; [simpl in Hn; lia|].
    cbv beta iota delta [String.append]. fold String.append.
    cbn [String.substring]. rewrite IH; [done|]. simpl in Hn. lia.
Qed.

Lemma findall_from_separator s1 c s2 k :
  separator c = true ->
  (k <= String.length s1)%nat ->
  findall_from k (String.append s1 (String c s2)) =
  app (findall_from k s1) (findall_from 0 s2).
Proof.
  intros Hc. revert k. induction s1 as [|a s1 IH]; intros k Hk.
  - assert (k = 0)%nat as -> by (simpl in Hk; lia).
    cbv beta iota delta [String.append]. cbn [findall_from app].
    pose proof (match_technique_separator "" c s2 Hc) as Hm.
    cbv beta iota delta [String.append] in Hm. rewrite Hm. done.
  - pose proof (match_technique_separator (String a s1) c s2 Hc) as Hm.
    pose proof (substring_append) as Hsub.
    cbv beta iota delta [String.append] in Hm |- *. fold String.append in *.
    cbn [findall_from]. cbn [String.length] in Hk.
    destruct k as [|k]; [|apply IH; lia].
    rewrite Hm.
    destruct (match_technique (String a s1)) as [n|] eqn:E;
      [|apply IH; lia].
    apply match_technique_shape in E as (_ & Hn & H5).
    cbn [String.length] in Hn.
    change (String a (String.append s1 (String c s2)))
      with (String.append (String a s1) (String c s2)).
    rewrite Hsub by (cbn [String.length]; lia).
    cbn [app]. f_equal. apply IH. lia.
Qed.

(** X3: joining two texts with a character that can belong to no technique
    identifier (a space, a comma, an arrow) joins their technique lists:
    no technique is lost, split or created at the seam. *)
Theorem extract_techniques_join (s1 s2 : string) (c : ascii) :
  separator c = true ->
  V1.extract_techniques (Some (String.append s1 (String c s2))) =
  app (V1.extract_techniques (Some s1)) (V1.extract_techniques (Some s2)).
Proof.
  intros Hc.
  assert (He : forall s, V1.extract_techniques (Some s)
                         = re_findall_technique s).
  { intros s. unfold V1.extract_techniques.
    destruct (String.eqb_spec s "") as [->|]; done. }
  rewrite !He. unfold re_findall_technique.
  apply findall_from_separator; [done|lia].
Qed.

Lemma extract_techniques_join_witness :
  V1.extract_techniques (Some (String.append "T1566.001" (String " " "T1059"))) =
  app (V1.extract_techniques (Some "T1566.001"))
      (V1.extract_techniques (Some "T1059")).
Proof. apply (extract_techniques_join "T1566.001" "T1059" " "). reflexivity. Defined.

(** ** What a score of 1 means *)

(** X11: the first coherence scorer and both realism scorers return 1
    exactly when no technique can be extracted from the input. *)
Theorem score_one_iff_nothing_extracted (s : option string) (apt : string) :
  (V1.evaluate_logical_coherence s = 1 <-> V1.extract_techniques s = []) /\
  (V1.evaluate_operational_realism s apt = 1 <->
   V1.extract_techniques s = []) /\
  (V2.score_operational_realism s apt = 1 <->
   V2.extract_techniques s = []).
Proof.
  split; [|split]; split.
  - intros H. destruct (V1.extract_techniques s) as [|t l] eqn:E; [done|].
    exfalso. rewrite coherence_v1_values in H by (by rewrite E).
    rewrite E in H.
    destruct (V1.tactic_order_values (t :: l)) as [|x v]; [discriminate|].
    cbv zeta in H.
    pose proof (violation_score_v1_range
                  (V1.count_violations 0 (x :: v))
                  (Z.of_nat (length (x :: v)))). lia.
  - intros H. unfold V1.evaluate_logical_coherence. by rewrite H.
  - intros H. destruct (V1.extract_techniques s) as [|t l] eqn:E; [done|].
    exfalso.
    assert (Hne : V1.extract_techniques s ≠ []) by (by rewrite E).
    pose proof (realism_v1_lower s apt Hne). lia.
  - intros H. unfold V1.evaluate_operational_realism. by rewrite H.
  - intros H. destruct (V2.extract_techniques s) as [|t l] eqn:E; [done|].
    exfalso.
    assert (Hne : V2.extract_techniques s ≠ []) by (by rewrite E).
    pose proof (realism_v2_lower s apt Hne). lia.
  - intros H. unfold V2.score_operational_realism. by rewrite H.
Qed.

Lemma score_one_iff_nothing_extracted_witness :
  V1.evaluate_logical_coherence (Some "n/a") = 1 /\
  V2.score_operational_realism (Some "n/a") "APT29" = 1.
Proof.
  destruct (score_one_iff_nothing_extracted (Some "n/a") "APT29")
    as (H1 & _ & H3).
  split; [apply H1|apply H3]; reflexivity.
Defined.
